(** * gemma.cpp: the interactive session driver of run.cc

    A shallow embedding of [ReplGemma] (run.cc, lines 90-201) and of its
    token callback [stream_token] (lines 107-139), with the properties of
    the session loop stated over it.

    What run.cc only calls is kept abstract, as an interface ([Platform]):
    the SentencePiece tokenizer, the std::mt19937 engine, the generator
    [GenerateGemma] of gemma.h and the constant [EOS_ID].  The generator
    is a program that may invoke the callback and draw from the engine,
    both of which it receives by reference; what it prints itself and the
    thread pools it runs on are left out.  The console is the list of the
    lines [std::getline] delivers before it fails, and the output is a
    trace of events.

    The counters [abs_pos], [current_pos] and [prompt_size] are C++ [int]s.
    They start at 0 and move by one per streamed token, and signed overflow
    is undefined in C++, so they are modelled in [Z] without wrap-around;
    [max_tokens] is compared with [abs_pos] as an integer. *)

From Stdlib Require Import ZArith String Ascii List Bool Lia Sorted.
From Stdlib Require Import Floats.PrimFloat Numbers.Cyclic.Int63.Uint63.
Import ListNotations.
Open Scope string_scope.
Open Scope list_scope.
Open Scope Z_scope.

(** ** Data *)

(** [enum class ModelTraining] of gemma.h: instruction-tuned or pretrained. *)
Inductive ModelTraining := GEMMA_IT | GEMMA_PT.

(** The fields of [InferenceArgs] that run.cc reads. *)
Record InferenceArgs := {
  max_tokens : Z;
  multiturn : bool;
  deterministic : bool
}.

(** What reaches the terminal, in order, and the calls of the generator. *)
Inductive Event :=
| Cout (s : string)                               (* std::cout << s *)
| CoutInt (n : Z)                                 (* std::cout << n *)
| CoutDouble (x : float)                          (* std::cout << x *)
| Cerr (s : string)                               (* std::cerr << s *)
| CallGenerate (prompt : list Z) (start_pos : Z). (* GenerateGemma(...) *)

(** The generator as seen from run.cc: it streams tokens to the callback
    (whose boolean answer it receives), draws from the engine, and ends
    leaving the model's key-value cache in a new state. *)
Inductive GenProg (KV : Type) :=
| GDone (kv : KV)
| GStream (token : Z) (k : bool -> GenProg KV)
| GSample (k : Z -> GenProg KV).
Arguments GDone {KV} kv.
Arguments GStream {KV} token k.
Arguments GSample {KV} k.

(** The collaborators of run.cc. *)
Class Platform := {
  mt19937 : Type;                                  (* std::mt19937 *)
  mt_seed : Z -> mt19937;                          (* gen.seed(v) *)
  mt_next : mt19937 -> Z * mt19937;                (* gen() *)
  KVCache : Type;                                  (* state held by Gemma *)
  Encode : string -> option (list Z);              (* Tokenizer().Encode *)
  Decode : list Z -> option string;                (* Tokenizer().Decode *)
  EOS_ID : Z;                                      (* gcpp::EOS_ID *)
  source_file : string;                            (* __FILE__ in run.cc *)
  GenerateGemma :                                  (* gemma.h *)
    ModelTraining -> KVCache -> InferenceArgs -> list Z (* prompt *) ->
    Z (* start_pos *) -> (Z -> bool) (* accept_token *) ->
    Z (* verbosity *) -> GenProg KVCache
}.

(** [gcpp::Gemma]: the training variant and the mutable cache. *)
Record Gemma `{Platform} := {
  model_training : ModelTraining;
  kv_cache : KVCache
}.

(** What a run does not control: the value [rd()] of std::random_device and
    the readings of [hwy::platform::Now()], numbered in call order. *)
Record World := {
  random_device : Z;
  Now : nat -> float
}.

(** The variables of [ReplGemma] that the callback captures by reference,
    the cache inside [model], and the number of clock readings so far. *)
Record Session `{Platform} := {
  abs_pos : Z;
  current_pos : Z;
  prompt_size : Z;
  gen : mt19937;
  cache : KVCache;
  ticks : nat
}.

Definition nl : string := String (ascii_of_nat 10) EmptyString.
Definition tab : ascii := ascii_of_nat 9.
Definition newline : ascii := ascii_of_nat 10.

(** ** A state, trace and abort monad *)

Inductive Res `{Platform} (A : Type) :=
| Ok (a : A) (s : Session)
| Abort (msg : string).
Arguments Ok {_ A} a s.
Arguments Abort {_ A} msg.

Definition M `{Platform} (A : Type) : Type := Session -> list Event * Res A.

Definition ret `{Platform} {A} (a : A) : M A := fun s => ([], Ok a s).

Definition bind `{Platform} {A B} (m : M A) (k : A -> M B) : M B :=
  fun s =>
    match m s with
    | (t1, Ok a s1) => let (t2, r) := k a s1 in (t1 ++ t2, r)
    | (t1, Abort msg) => (t1, Abort msg)
    end.

Declare Scope repl_scope.
Delimit Scope repl_scope with repl.
Notation "x <- m ;; k" := (bind m (fun x => k))
  (at level 61, m at next level, right associativity) : repl_scope.
Notation "m ;; k" := (bind m (fun _ => k))
  (at level 61, right associativity) : repl_scope.
Open Scope repl_scope.

Definition get `{Platform} : M Session := fun s => ([], Ok s s).
Definition emit `{Platform} (e : Event) : M unit := fun s => ([e], Ok tt s).
Definition when `{Platform} (b : bool) (m : M unit) : M unit :=
  if b then m else ret tt.

(** What [hwy::Abort] (hwy/base.h) writes to standard error before it ends
    the process: "Abort at file:line: message" and a line break. *)
Definition abort_text `{Platform} (line cond : string) : string :=
  ("Abort at " ++ source_file ++ ":" ++ line ++ ": Assert " ++ cond ++ nl)%string.

(** [HWY_ASSERT(cond)] at [line]: when the condition fails, write the
    diagnostic to standard error and abort the process. *)
Definition HWY_ASSERT `{Platform} {A} (line cond : string) (v : option A)
  : M A :=
  match v with
  | Some a => ret a
  | None =>
      fun _ => ([Cerr (abort_text line cond)], Abort ("Assert " ++ cond)%string)
  end.

Section Setters.
Context `{Platform}.

Definition with_abs_pos (v : Z) (s : Session) : Session :=
  {| abs_pos := v; current_pos := current_pos s;
     prompt_size := prompt_size s; gen := gen s;
     cache := cache s; ticks := ticks s |}.

Definition with_current_pos (v : Z) (s : Session) : Session :=
  {| abs_pos := abs_pos s; current_pos := v;
     prompt_size := prompt_size s; gen := gen s;
     cache := cache s; ticks := ticks s |}.

Definition with_prompt_size (v : Z) (s : Session) : Session :=
  {| abs_pos := abs_pos s; current_pos := current_pos s;
     prompt_size := v; gen := gen s;
     cache := cache s; ticks := ticks s |}.

Definition with_gen (g : mt19937) (s : Session) : Session :=
  {| abs_pos := abs_pos s; current_pos := current_pos s;
     prompt_size := prompt_size s; gen := g;
     cache := cache s; ticks := ticks s |}.

Definition with_cache (c : KVCache) (s : Session) : Session :=
  {| abs_pos := abs_pos s; current_pos := current_pos s;
     prompt_size := prompt_size s; gen := gen s;
     cache := c; ticks := ticks s |}.

Definition tick (s : Session) : Session :=
  {| abs_pos := abs_pos s; current_pos := current_pos s;
     prompt_size := prompt_size s; gen := gen s;
     cache := cache s; ticks := S (ticks s) |}.

Definition set_abs_pos (v : Z) : M unit :=
  fun s => ([], Ok tt (with_abs_pos v s)).
Definition set_current_pos (v : Z) : M unit :=
  fun s => ([], Ok tt (with_current_pos v s)).
Definition set_prompt_size (v : Z) : M unit :=
  fun s => ([], Ok tt (with_prompt_size v s)).
Definition set_gen (g : mt19937) : M unit :=
  fun s => ([], Ok tt (with_gen g s)).
Definition set_cache (c : KVCache) : M unit :=
  fun s => ([], Ok tt (with_cache c s)).

(** One reading of the clock. *)
Definition read_clock (now : nat -> float) : M float :=
  fun s => ([], Ok (now (ticks s)) (tick s)).
End Setters.

(** ** std::string helpers used by the callback *)

Definition is_blank (c : ascii) : bool :=
  (c =? " ")%char || (c =? tab)%char || (c =? newline)%char.

(** [s.find_first_not_of(" \t\n")]; [None] is [npos]. *)
Fixpoint find_first_not_of_blank (s : string) : option nat :=
  match s with
  | EmptyString => None
  | String c r =>
      if is_blank c then option_map S (find_first_not_of_blank r)
      else Some 0%nat
  end.

Fixpoint drop (n : nat) (s : string) : string :=
  match n, s with
  | O, _ => s
  | S _, EmptyString => EmptyString
  | S k, String _ r => drop k r
  end.

(** [s.erase(0, count)]; [npos] erases to the end. *)
Definition erase0 (s : string) (count : option nat) : string :=
  match count with
  | None => EmptyString
  | Some n => drop n s
  end.

(** ** The token callback (run.cc 107-139) *)

Section Repl.
Context `{Platform}.
Variable args : InferenceArgs.
Variable verbosity : Z.

Definition decode_cond : string :=
  "tokenizer->Decode(std::vector<int>{token}, &token_text).ok()".
Definition encode_cond : string :=
  "model.Tokenizer().Encode(prompt_string, &prompt).ok()".

Definition stream_token (token : Z) : M bool :=
  s0 <- get ;;
  set_abs_pos (abs_pos s0 + 1) ;;
  set_current_pos (current_pos s0 + 1) ;;
  s <- get ;;
  (if current_pos s <? prompt_size s then
     emit (Cerr ".")
   else if token =? EOS_ID then
     when (negb (multiturn args))
          (set_abs_pos 0 ;;
           when (deterministic args) (set_gen (mt_seed 42))) ;;
     when (2 <=? verbosity) (emit (Cout (nl ++ "[ End ]")%string) ;; emit (Cout nl))
   else
     token_text <- HWY_ASSERT "126" decode_cond (Decode [token]) ;;
     (if current_pos s =? prompt_size s + 1 then
        when (1 <=? verbosity) (emit (Cout nl) ;; emit (Cout nl)) ;;
        emit (Cout (erase0 token_text (find_first_not_of_blank token_text)))
      else
        emit (Cout token_text))) ;;
  ret true.

(** Running the generator against the callback and the engine. *)
Fixpoint run_gen (p : GenProg KVCache) : M unit :=
  match p with
  | GDone kv => set_cache kv
  | GStream token k => b <- stream_token token ;; run_gen (k b)
  | GSample k =>
      s <- get ;;
      set_gen (snd (mt_next (gen s))) ;;
      run_gen (k (fst (mt_next (gen s))))
  end.

(** *** One turn (run.cc 162-195) *)

Variable training : ModelTraining.
Variable accept_token : Z -> bool.
Variable now : nat -> float.

(** Lines 162-171: the control tokens of the instruction-tuned variant. *)
Definition template_prompt (pos : Z) (prompt_string : string) : string :=
  match training with
  | GEMMA_IT =>
      let wrapped :=
        ("<start_of_turn>user" ++ nl ++ prompt_string ++
         "<end_of_turn>" ++ nl ++ "<start_of_turn>model" ++ nl)%string in
      if 0 <? pos then ("<end_of_turn>" ++ nl ++ wrapped)%string
      else wrapped
  | GEMMA_PT => prompt_string
  end.

(** Lines 162-181: template, encode, insert token 2 (bos) at the front
    when [abs_pos == 0], then record [prompt_size]. *)
Definition build_prompt (prompt_string : string) : M (list Z) :=
  s <- get ;;
  encoded <- HWY_ASSERT "173" encode_cond
               (Encode (template_prompt (abs_pos s) prompt_string)) ;;
  let prompt := if abs_pos s =? 0 then 2 :: encoded else encoded in
  set_prompt_size (Z.of_nat (length prompt)) ;;
  ret prompt.

(** [current_pos / (time_end - time_start)], in double precision. *)
Definition tok_sec (pos : Z) (time_start time_end : float) : float :=
  PrimFloat.div (PrimFloat.of_uint63 (Uint63.of_Z pos))
                (PrimFloat.sub time_end time_start).

Definition run_turn (prompt_string : string) : M unit :=
  prompt <- build_prompt prompt_string ;;
  emit (Cerr nl) ;; emit (Cerr "[ Reading prompt ] ") ;;
  time_start <- read_clock now ;;
  s <- get ;;
  emit (CallGenerate prompt (abs_pos s)) ;;
  run_gen (GenerateGemma training (cache s) args prompt (abs_pos s)
                         accept_token verbosity) ;;
  time_end <- read_clock now ;;
  s1 <- get ;;
  when (2 <=? verbosity)
       (emit (CoutInt (current_pos s1)) ;; emit (Cout " tokens (") ;;
        emit (CoutInt (abs_pos s1)) ;; emit (Cout " total tokens)") ;;
        emit (Cout nl) ;;
        emit (CoutDouble (tok_sec (current_pos s1) time_start time_end)) ;;
        emit (Cout " tokens / sec") ;; emit (Cout nl)) ;;
  emit (Cout nl) ;; emit (Cout nl).

(** *** The loop (run.cc 141-200) *)

Definition is_quit (line : string) : bool :=
  (line =? "%q")%string || (line =? "%Q")%string.
Definition is_clear (line : string) : bool :=
  (line =? "%c")%string || (line =? "%C")%string.

(** One pass through the loop body.  [None] is a failed [std::getline];
    the answer says whether the loop goes on ([false]: [return]). *)
Definition iteration (line : option string) : M bool :=
  set_current_pos 0 ;;
  when (1 <=? verbosity) (emit (Cout "> ")) ;;
  match line with
  | None => ret false
  | Some prompt_string =>
      if is_quit prompt_string then ret false
      else if is_clear prompt_string then set_abs_pos 0 ;; ret true
      else run_turn prompt_string ;; ret true
  end.

(** How [ReplGemma] ends: by [return] (line 154), by leaving the loop
    (line 197), or in [HWY_ASSERT]. *)
Inductive Exit :=
| Returned (s : Session)
| Exceeded (s : Session)
| Aborted (msg : string).

Definition exceeded_message : list Event :=
  [Cout "max_tokens ("; CoutInt (max_tokens args);
   Cout ") exceeded. Use a larger value if desired using the --max_tokens ";
   Cout ("command line flag." ++ nl)%string].

(** The console delivers the lines of [input], then fails. *)
Fixpoint repl (input : list string) (s : Session) : list Event * Exit :=
  if abs_pos s <? max_tokens args then
    match input with
    | [] =>
        match iteration None s with
        | (t, Ok _ s1) => (t, Returned s1)
        | (t, Abort msg) => (t, Aborted msg)
        end
    | line :: rest =>
        match iteration (Some line) s with
        | (t, Ok true s1) => let (t', e) := repl rest s1 in (t ++ t', e)
        | (t, Ok false s1) => (t, Returned s1)
        | (t, Abort msg) => (t, Aborted msg)
        end
    end
  else (exceeded_message, Exceeded s).
End Repl.

Arguments Returned {_} s.
Arguments Exceeded {_} s.
Arguments Aborted {_} msg.

(** Lines 94-104: the counters at zero, the engine seeded with 42 when
    [deterministic], else with [rd()]. *)
Definition initial_session `{Platform} (model : Gemma) (args : InferenceArgs)
    (w : World) : Session :=
  {| abs_pos := 0; current_pos := 0; prompt_size := 0;
     gen := if deterministic args then mt_seed 42
            else mt_seed (random_device w);
     cache := kv_cache model; ticks := 0 |}.

(** [ReplGemma] (run.cc 90-201): seed the engine, then loop. *)
Definition ReplGemma `{Platform} (model : Gemma) (args : InferenceArgs)
    (verbosity : Z) (accept_token : Z -> bool) (w : World)
    (input : list string) : list Event * Exit :=
  repl args verbosity (model_training model) accept_token (Now w) input
       (initial_session model args w).

(** ** Reading the trace *)

(** The generator calls of a trace: prompt and start position. *)
Fixpoint calls (t : list Event) : list (list Z * Z) :=
  match t with
  | [] => []
  | CallGenerate prompt pos :: r => (prompt, pos) :: calls r
  | _ :: r => calls r
  end.

(** Where a session ended: the last [abs_pos], and whether the loop was left
    for lack of budget. *)
Definition final_abs_pos `{Platform} (e : Exit) : option Z :=
  match e with
  | Returned s | Exceeded s => Some (abs_pos s)
  | Aborted _ => None
  end.


(** A trace with the value of every printed double forgotten. *)
Definition erase_timing (e : Event) : Event :=
  match e with
  | CoutDouble _ => CoutDouble PrimFloat.zero
  | _ => e
  end.

(** ** The pieces of a turn

    Names for the states and the output of the branches of the callback and
    of the loop body, in which the unfolding lemmas below are stated. *)

Section Shapes.
Context `{Platform}.
Variable args : InferenceArgs.
Variable verbosity : Z.
Variable training : ModelTraining.

(** Both counters advanced by one (lines 110-111). *)
Definition bump (s : Session) : Session :=
  with_current_pos (current_pos s + 1) (with_abs_pos (abs_pos s + 1) s).

(** The state after the end-of-sequence branch (lines 115-120). *)
Definition after_eos (s : Session) : Session :=
  if multiturn args then bump s
  else if deterministic args then with_gen (mt_seed 42) (with_abs_pos 0 (bump s))
       else with_abs_pos 0 (bump s).

Definition eos_marker : list Event :=
  if 2 <=? verbosity then [Cout (nl ++ "[ End ]")%string; Cout nl] else [].

Definition text_events (first : bool) (token_text : string) : list Event :=
  if first then
    (if 1 <=? verbosity then [Cout nl; Cout nl] else []) ++
    [Cout (erase0 token_text (find_first_not_of_blank token_text))]
  else [Cout token_text].

(** What the two assertions write when they fail (lines 126 and 173). *)
Definition decode_abort : list Event := [Cerr (abort_text "126" decode_cond)].
Definition encode_abort : list Event := [Cerr (abort_text "173" encode_cond)].

(** The prompt handed to the generator (lines 173-179). *)
Definition with_bos (pos : Z) (encoded : list Z) : list Z :=
  if pos =? 0 then 2 :: encoded else encoded.

Definition turn_header (prompt : list Z) (pos : Z) : list Event :=
  [Cerr nl; Cerr "[ Reading prompt ] "; CallGenerate prompt pos].

(** Lines 189-195, for the state [s] the generator left. *)
Definition turn_footer (s : Session) (time_start time_end : float)
  : list Event :=
  (if 2 <=? verbosity then
     [CoutInt (current_pos s); Cout " tokens ("; CoutInt (abs_pos s);
      Cout " total tokens)"; Cout nl;
      CoutDouble (tok_sec (current_pos s) time_start time_end);
      Cout " tokens / sec"; Cout nl]
   else []) ++ [Cout nl; Cout nl].

(** Lines 147-149: the prompt sign of verbose sessions. *)
Definition prompt_mark : list Event :=
  if 1 <=? verbosity then [Cout "> "] else [].

(** Between two states of one generator call: [prompt_size] and the clock
    stay, and [abs_pos] stays non-negative. *)
Definition gen_frame (s s' : Session) : Prop :=
  prompt_size s' = prompt_size s /\ ticks s' = ticks s /\
  (0 <= abs_pos s -> 0 <= abs_pos s').

(** The generator call of one pass, if any: made at the position the pass
    started from, with the encoded line and its token 2. *)
Definition call_of_turn (line : string) (pos : Z) (c : list Z * Z) : Prop :=
  snd c = pos /\
  exists encoded,
    Encode (template_prompt training pos line) = Some encoded /\
    fst c = if pos =? 0 then 2 :: encoded else encoded.

(** Two outcomes that agree on everything but the doubles they printed, and
    on those too below verbosity 2. *)
Definition same_but_timing {A : Type} (r1 r2 : list Event * A) : Prop :=
  snd r1 = snd r2 /\
  map erase_timing (fst r1) = map erase_timing (fst r2) /\
  (verbosity < 2 -> fst r1 = fst r2).

End Shapes.

(** ** A small platform to run the driver on

    Tokens are character codes, the engine is a linear congruential one, and
    the generator has the shape of the real one: it streams the prompt, then
    samples and streams response tokens while the position is below
    [max_tokens], stopping at [EOS_ID] or when the callback says so.  The
    tokenizer is a parameter, so that a failing one can be plugged in. *)

Module Demo.

Definition encode_bytes (s : string) : option (list Z) :=
  Some (map (fun c => Z.of_nat (nat_of_ascii c)) (list_ascii_of_string s)).

Definition decode_bytes (toks : list Z) : option string :=
  Some (string_of_list_ascii (map (fun t => ascii_of_nat (Z.to_nat t)) toks)).

Definition lcg (g : Z) : Z * Z :=
  let g' := (g * 1103515245 + 12345) mod 2147483648 in (g' / 65536, g').

(** The sampled token: end of sequence one time in four, else a letter. *)
Definition pick (v : Z) : Z :=
  if v mod 4 =? 0 then 1 else 97 + v mod 26.

Fixpoint prefill (toks : list Z) (k : GenProg nat) : GenProg nat :=
  match toks with
  | [] => k
  | t :: r => GStream t (fun _ => prefill r k)
  end.

Fixpoint generate (fuel : nat) (pos limit : Z) (kv : nat) : GenProg nat :=
  match fuel with
  | O => GDone kv
  | S f =>
      if pos <? limit then
        GSample (fun v =>
          GStream (pick v) (fun continue =>
            if (pick v =? 1) || negb continue then GDone (S kv)
            else generate f (pos + 1) limit (S kv)))
      else GDone kv
  end.

Definition platform (enc : string -> option (list Z))
    (dec : list Z -> option string) : Platform :=
  {| mt19937 := Z;
     mt_seed := fun v => v;
     mt_next := lcg;
     KVCache := nat;
     Encode := enc;
     Decode := dec;
     EOS_ID := 1;
     source_file := "run.cc";
     GenerateGemma := fun _ kv args prompt start_pos _ _ =>
       prefill prompt
         (generate 8 (start_pos + Z.of_nat (length prompt))
                   (max_tokens args) (kv + length prompt)%nat) |}.

Definition bytes : Platform := platform encode_bytes decode_bytes.

(** A tokenizer that knows no token above 127. *)
Definition decode_ascii (toks : list Z) : option string :=
  if forallb (fun t => t <? 128) toks then decode_bytes toks else None.
Definition encode_ascii (s : string) : option (list Z) :=
  match encode_bytes s with
  | Some toks => if forallb (fun t => t <? 128) toks then Some toks else None
  | None => None
  end.
Definition ascii_only : Platform := platform encode_ascii decode_ascii.

Definition model (P : Platform) (t : ModelTraining) (kv : @KVCache P)
  : @Gemma P := {| model_training := t; kv_cache := kv |}.

Definition accept_all (_ : Z) : bool := true.

Definition world (rd : Z) (t0 dt : float) : World :=
  {| random_device := rd;
     Now := fun n => PrimFloat.add t0
              (PrimFloat.mul dt (PrimFloat.of_uint63 (Uint63.of_Z (Z.of_nat n)))) |}.

(** Sessions and states to run. *)
Definition single_turn : InferenceArgs :=
  {| max_tokens := 50; multiturn := false; deterministic := true |}.

Definition state (enc : string -> option (list Z))
    (dec : list Z -> option string) (a c p : Z) : @Session (platform enc dec) :=
  @Build_Session (platform enc dec) a c p 42 0%nat 1%nat.

Definition pretrained : @Gemma bytes := model bytes GEMMA_PT 0%nat.

(** The doubles a trace prints. *)
Fixpoint doubles (t : list Event) : list float :=
  match t with
  | [] => []
  | CoutDouble x :: r => x :: doubles r
  | _ :: r => doubles r
  end.

End Demo.

(** ** Generator programs and measures of a session *)

Section Programs.
Context `{Platform}.

(** A generator that streams [toks] to the callback, one after the other,
    and goes on as [k]. *)
Fixpoint echo (toks : list Z) (k : GenProg KVCache) : GenProg KVCache :=
  match toks with
  | [] => k
  | token :: rest => GStream token (fun _ => echo rest k)
  end.

(** The part of a generator that is run when the callback never asks to
    stop. *)
Fixpoint follow_true (p : GenProg KVCache) : GenProg KVCache :=
  match p with
  | GDone kv => GDone kv
  | GStream token k => GStream token (fun _ => follow_true (k true))
  | GSample k => GSample (fun v => follow_true (k v))
  end.

(** The generator invokes the callback before it ends, whatever it draws. *)
Fixpoint streams_first (p : GenProg KVCache) : Prop :=
  match p with
  | GDone _ => False
  | GStream _ _ => True
  | GSample k => forall v, streams_first (k v)
  end.

(** The engine after one [gen()]. *)
Definition draw (g : mt19937) : mt19937 := snd (mt_next g).

(** Both counters advanced by [n]. *)
Definition advance (n : Z) (s : Session) : Session :=
  with_current_pos (current_pos s + n) (with_abs_pos (abs_pos s + n) s).

(** The state in which the generator is entered (lines 144-185). *)
Definition turn_start (s : Session) (encoded : list Z) : Session :=
  tick (with_prompt_size
          (Z.of_nat (length (with_bos (abs_pos s) encoded)))
          (with_current_pos 0 s)).

(** The counters are never negative at a state the loop can be in. *)
Definition counters_ok (s : Session) : Prop :=
  0 <= abs_pos s /\ 0 <= prompt_size s.
End Programs.

(** The lines the loop handles itself (run.cc 153-160). *)
Definition is_command (line : string) : bool := is_quit line || is_clear line.

(** The prompt text in the words of the specification: the line between
    the user-turn and model-turn markers, with the end-of-turn marker in
    front on a continuation turn; the line itself for the pretrained
    variant. *)
Definition wrapped_text (training : ModelTraining) (pos : Z) (text : string)
  : string :=
  match training with
  | GEMMA_IT =>
      ((if (0 <? pos)%Z then "<end_of_turn>" ++ nl else "") ++
       "<start_of_turn>user" ++ nl ++ text ++
       "<end_of_turn>" ++ nl ++ "<start_of_turn>model" ++ nl)%string
  | GEMMA_PT => text
  end.

(** A call of the tokenizer: [Encode] of a text (line 173) or [Decode] of
    one token (line 126). *)
Inductive Request :=
| ToEncode (text : string)
| ToDecode (token : Z).

Definition succeeds `{Platform} (r : Request) : bool :=
  match r with
  | ToEncode text => match Encode text with Some _ => true | None => false end
  | ToDecode token =>
      match Decode [token] with Some _ => true | None => false end
  end.

(** The message and the diagnostic of the assertion that guards a call. *)
Definition abort_message (r : Request) : string :=
  match r with
  | ToEncode _ => ("Assert " ++ encode_cond)%string
  | ToDecode _ => ("Assert " ++ decode_cond)%string
  end.

Definition abort_trace `{Platform} (r : Request) : list Event :=
  match r with
  | ToEncode _ => encode_abort
  | ToDecode _ => decode_abort
  end.

Section Observations.
Context `{Platform}.
Variable args : InferenceArgs.
Variable verbosity : Z.
Variable training : ModelTraining.
Variable accept_token : Z -> bool.
Variable now : nat -> float.

(** The callback takes [token] to [Decode]: the token is past the prefill
    test of line 112 and is not [EOS_ID]. *)
Definition reaches_decode (token : Z) (s : Session) : bool :=
  negb (current_pos s + 1 <? prompt_size s) && negb (token =? EOS_ID).

(** The tokens the generator streams in one call, in order. *)
Fixpoint streamed (p : GenProg KVCache) (s : Session) : list Z :=
  match p with
  | GDone _ => []
  | GStream token k =>
      token ::
      match stream_token args verbosity token s with
      | (_, Ok b s1) => streamed (k b) s1
      | (_, Abort _) => []
      end
  | GSample k =>
      streamed (k (fst (mt_next (gen s)))) (with_gen (snd (mt_next (gen s))) s)
  end.

(** The tokens handed to [Decode] in one generator call, in order. *)
Fixpoint decoded (p : GenProg KVCache) (s : Session) : list Z :=
  match p with
  | GDone _ => []
  | GStream token k =>
      (if reaches_decode token s then [token] else []) ++
      match stream_token args verbosity token s with
      | (_, Ok b s1) => decoded (k b) s1
      | (_, Abort _) => []
      end
  | GSample k =>
      decoded (k (fst (mt_next (gen s)))) (with_gen (snd (mt_next (gen s))) s)
  end.

(** What a generator call that aborted wrote last. *)
Definition abort_tail {A : Type} (r : Res A) : list Event :=
  match r with
  | Ok _ _ => []
  | Abort _ => decode_abort
  end.

(** The tokenizer calls of one pass of the loop body for [line]. *)
Definition line_requests (line : string) (s : Session) : list Request :=
  if is_command line then []
  else
    ToEncode (template_prompt training (abs_pos s) line) ::
    match Encode (template_prompt training (abs_pos s) line) with
    | None => []
    | Some encoded =>
        map ToDecode
            (decoded
               (GenerateGemma training (cache s) args
                  (with_bos (abs_pos s) encoded) (abs_pos s)
                  accept_token verbosity)
               (turn_start s encoded))
    end.

(** The tokenizer calls of a session, in order. *)
Fixpoint requests (input : list string) (s : Session) : list Request :=
  if abs_pos s <? max_tokens args then
    match input with
    | [] => []
    | line :: rest =>
        line_requests line s ++
        match snd (iteration args verbosity training accept_token now
                     (Some line) s) with
        | Ok true s1 => requests rest s1
        | _ => []
        end
    end
  else [].

(** An outcome that ended in an abort: the calls before the failing one
    succeeded, the failing one is the last, and the trace ends with the
    diagnostic of its assertion. *)
Definition aborted_by (reqs : list Request) (t : list Event) (msg : string)
  : Prop :=
  exists done bad t0,
    reqs = done ++ [bad] /\ forallb succeeds done = true /\
    succeeds bad = false /\ t = t0 ++ abort_trace bad /\
    msg = abort_message bad.

(** The engine after the end-of-sequence branch: seeded with 42 in a
    deterministic session that is not multiturn, as it was otherwise. *)
Definition engine_after_eos (g : mt19937) : mt19937 :=
  if negb (multiturn args) && deterministic args then mt_seed 42 else g.
End Observations.

(** An event that is not a write to standard error. *)
Definition no_stderr (e : Event) : Prop :=
  match e with
  | Cerr _ => False
  | _ => True
  end.

(** What the driver itself writes to standard error: the progress dot, and
    the line break and notice before the generator is called. *)
Definition driver_stderr (e : Event) : Prop :=
  match e with
  | Cerr text => text = "." \/ text = nl \/ text = "[ Reading prompt ] "
  | _ => True
  end.

(** Line 130: [token_text.erase(0, token_text.find_first_not_of(" \t\n"))]. *)
Definition strip_leading (token_text : string) : string :=
  erase0 token_text (find_first_not_of_blank token_text).

(** A platform whose generator streams one token before it echoes the
    prompt, to run the properties that need a generator that always streams. *)
Module Probe.

Definition eager : Platform :=
  {| mt19937 := Z;
     mt_seed := fun v => v;
     mt_next := Demo.lcg;
     KVCache := nat;
     Encode := Demo.encode_bytes;
     Decode := Demo.decode_bytes;
     EOS_ID := 1;
     source_file := "run.cc";
     GenerateGemma := fun _ kv _ prompt _ _ _ =>
       GStream 46 (fun _ => Demo.prefill prompt (GDone (S kv))) |}.

(** A platform whose generator goes on after the end-of-sequence token: it
    echoes the prompt, streams [EOS_ID], then one more token. *)
Definition chatty : Platform :=
  {| mt19937 := Z;
     mt_seed := fun v => v;
     mt_next := Demo.lcg;
     KVCache := nat;
     Encode := Demo.encode_bytes;
     Decode := Demo.decode_bytes;
     EOS_ID := 1;
     source_file := "run.cc";
     GenerateGemma := fun _ kv _ prompt _ _ _ =>
       Demo.prefill prompt
         (GStream 1 (fun _ => GStream 33 (fun _ => GDone (S kv)))) |}.

Definition multi : InferenceArgs :=
  {| max_tokens := 50; multiturn := true; deterministic := true |}.

Definition start : @Session eager := @Build_Session eager 0 0 0 42 0%nat 0%nat.

Definition chatty_start : @Session chatty :=
  @Build_Session chatty 0 0 0 42 0%nat 0%nat.

(** The tokens of "hi" wrapped for a continuation turn of the
    instruction-tuned variant, and a line no tokenizer of [Demo.ascii_only]
    encodes. *)
Definition wrapped_hi : list Z :=
  Eval vm_compute in
    match Demo.encode_bytes (wrapped_text GEMMA_IT 3 "hi") with
    | Some toks => toks
    | None => []
    end.

Definition latin_line : string := String (ascii_of_nat 233) "t".

End Probe.

(** ** Traces *)

Lemma calls_app (t1 t2 : list Event) : calls (t1 ++ t2) = calls t1 ++ calls t2.
Proof.
  induction t1 as [|e t1 IH]; simpl; [reflexivity|].
  destruct e; simpl; congruence.
Qed.

(** ** The callback, case by case *)

Section Callback.
Context `{Platform}.
Variable args : InferenceArgs.
Variable verbosity : Z.

Lemma stream_token_eq (token : Z) (s : Session) :
  stream_token args verbosity token s =
  if current_pos s + 1 <? prompt_size s then ([Cerr "."], Ok true (bump s))
  else if token =? EOS_ID then (eos_marker verbosity, Ok true (after_eos args s))
  else match Decode [token] with
       | None => (decode_abort, Abort ("Assert " ++ decode_cond)%string)
       | Some token_text =>
           (text_events verbosity (current_pos s + 1 =? prompt_size s + 1) token_text,
            Ok true (bump s))
       end.
Proof.
  unfold stream_token, bind, get, set_abs_pos, set_current_pos; simpl.
  destruct (current_pos s + 1 <? prompt_size s); [reflexivity|].
  destruct (token =? EOS_ID).
  - unfold after_eos, eos_marker, when, bind, ret, emit, set_abs_pos, set_gen.
    destruct (multiturn args), (deterministic args), (2 <=? verbosity);
      reflexivity.
  - unfold HWY_ASSERT, text_events, when, bind, ret, emit.
    destruct (Decode [token]); [|reflexivity].
    destruct (current_pos s + 1 =? prompt_size s + 1); [|reflexivity].
    destruct (1 <=? verbosity); reflexivity.
Qed.
End Callback.

(** ** The turn and the loop, unfolded *)

Section Turn.
Context `{Platform}.
Variable args : InferenceArgs.
Variable verbosity : Z.
Variable training : ModelTraining.
Variable accept_token : Z -> bool.
Variable now : nat -> float.

Lemma build_prompt_eq (line : string) (s : Session) :
  build_prompt training line s =
  match Encode (template_prompt training (abs_pos s) line) with
  | None => (encode_abort, Abort ("Assert " ++ encode_cond)%string)
  | Some encoded =>
      ([], Ok (with_bos (abs_pos s) encoded)
              (with_prompt_size
                 (Z.of_nat (length (with_bos (abs_pos s) encoded))) s))
  end.
Proof.
  unfold build_prompt, bind, get, HWY_ASSERT, set_prompt_size, ret, with_bos.
  simpl. destruct (Encode _); reflexivity.
Qed.

Lemma run_turn_eq (line : string) (s : Session) :
  run_turn args verbosity training accept_token now line s =
  match Encode (template_prompt training (abs_pos s) line) with
  | None => (encode_abort, Abort ("Assert " ++ encode_cond)%string)
  | Some encoded =>
      let prompt := with_bos (abs_pos s) encoded in
      let s1 := tick (with_prompt_size (Z.of_nat (length prompt)) s) in
      match run_gen args verbosity
              (GenerateGemma training (cache s) args prompt (abs_pos s)
                             accept_token verbosity) s1 with
      | (tg, Ok _ s2) =>
          (turn_header prompt (abs_pos s) ++ tg ++
           turn_footer verbosity s2 (now (ticks s)) (now (ticks s2)),
           Ok tt (tick s2))
      | (tg, Abort msg) => (turn_header prompt (abs_pos s) ++ tg, Abort msg)
      end
  end.
Proof.
  unfold run_turn. unfold bind at 1. rewrite build_prompt_eq.
  destruct (Encode _) as [encoded|]; [|reflexivity].
  unfold bind, emit, read_clock, get, turn_header, turn_footer, when, ret.
  simpl.
  destruct (run_gen _ _ _ _) as [tg [u s2|msg]]; simpl.
  - destruct (2 <=? verbosity); simpl; rewrite ?app_nil_r; reflexivity.
  - reflexivity.
Qed.
End Turn.

(** ** What the generator phase can and cannot change *)

Section Frame.
Context `{Platform}.
Variable args : InferenceArgs.
Variable verbosity : Z.

Lemma gen_frame_trans (s1 s2 s3 : Session) :
  gen_frame s1 s2 -> gen_frame s2 s3 -> gen_frame s1 s3.
Proof. unfold gen_frame; intuition congruence. Qed.

Lemma after_eos_frame (s : Session) : gen_frame s (after_eos args s).
Proof.
  unfold gen_frame, after_eos.
  destruct (multiturn args), (deterministic args); simpl;
    repeat split; intros; lia.
Qed.

Lemma stream_token_ok (token : Z) (s : Session) t b s' :
  stream_token args verbosity token s = (t, Ok b s') ->
  b = true /\ calls t = [] /\ gen_frame s s' /\
  current_pos s' = current_pos s + 1.
Proof.
  rewrite stream_token_eq.
  destruct (current_pos s + 1 <? prompt_size s).
  { intros [= <- <- <-]. unfold gen_frame; simpl.
    repeat split; intros; lia. }
  destruct (token =? EOS_ID).
  { intros [= <- <- <-]. repeat split; try apply after_eos_frame.
    - unfold eos_marker; destruct (2 <=? verbosity); reflexivity.
    - unfold after_eos.
      destruct (multiturn args), (deterministic args); reflexivity. }
  destruct (Decode [token]) as [text|]; [|discriminate].
  intros [= <- <- <-]. unfold gen_frame, text_events; simpl.
  repeat split; intros; try lia.
  destruct (_ =? _); [destruct (1 <=? verbosity)|]; reflexivity.
Qed.

Lemma stream_token_abort (token : Z) (s : Session) t msg :
  stream_token args verbosity token s = (t, Abort msg) ->
  t = decode_abort /\ msg = ("Assert " ++ decode_cond)%string /\
  Decode [token] = None.
Proof.
  rewrite stream_token_eq.
  destruct (current_pos s + 1 <? prompt_size s); [discriminate|].
  destruct (token =? EOS_ID); [discriminate|].
  destruct (Decode [token]); [discriminate|].
  intros [= <- <-]; auto.
Qed.

Lemma run_gen_calls (p : GenProg KVCache) :
  forall s, calls (fst (run_gen args verbosity p s)) = [].
Proof.
  induction p as [kv|token k IH|k IH]; intros s; simpl.
  - reflexivity.
  - unfold bind.
    destruct (stream_token args verbosity token s) as [t [b s1|msg]] eqn:E.
    + apply stream_token_ok in E as (_ & Ht & _).
      specialize (IH b s1). destruct (run_gen _ _ _ s1) as [t2 r].
      simpl in *. rewrite calls_app, Ht, IH. reflexivity.
    + apply stream_token_abort in E as (-> & _). reflexivity.
  - unfold bind, get, set_gen; simpl.
    specialize (IH (fst (mt_next (gen s)))
                   (with_gen (snd (mt_next (gen s))) s)).
    destruct (run_gen _ _ _ _) as [t2 r]. exact IH.
Qed.

Lemma run_gen_ok (p : GenProg KVCache) :
  forall s t u s', run_gen args verbosity p s = (t, Ok u s') -> gen_frame s s'.
Proof.
  induction p as [kv|token k IH|k IH]; intros s t u s'; simpl.
  - intros [= <- <- <-]. unfold gen_frame; simpl; auto.
  - unfold bind.
    destruct (stream_token args verbosity token s) as [t1 [b s1|msg]] eqn:E;
      [|discriminate].
    apply stream_token_ok in E as (_ & _ & Hf & _).
    destruct (run_gen _ _ _ s1) as [t2 r] eqn:E2.
    intros [= <- ->]. eapply gen_frame_trans; [exact Hf|].
    eapply IH; eassumption.
  - unfold bind, get, set_gen; simpl.
    destruct (run_gen _ _ _ _) as [t2 r] eqn:E2.
    intros [= <- ->]. apply IH in E2.
    unfold gen_frame in *; simpl in *. exact E2.
Qed.

(** With a tokenizer that decodes every token, the generator phase cannot
    abort. *)
Lemma run_gen_no_abort (p : GenProg KVCache) :
  (forall token, Decode [token] <> None) ->
  forall s t msg, run_gen args verbosity p s <> (t, Abort msg).
Proof.
  intros Hdec.
  induction p as [kv|token k IH|k IH]; intros s t msg; simpl.
  - discriminate.
  - unfold bind.
    destruct (stream_token args verbosity token s) as [t1 [b s1|m]] eqn:E.
    + destruct (run_gen _ _ _ s1) as [t2 r] eqn:E2.
      intros [= <- ->]. exact (IH b s1 t2 msg E2).
    + apply stream_token_abort in E as (_ & _ & E). now apply Hdec in E.
  - unfold bind, get, set_gen; simpl.
    destruct (run_gen _ _ _ _) as [t2 r] eqn:E2.
    intros [= <- ->]. exact (IH _ _ _ _ E2).
Qed.
End Frame.

Section Loop.
Context `{Platform}.
Variable args : InferenceArgs.
Variable verbosity : Z.
Variable training : ModelTraining.
Variable accept_token : Z -> bool.
Variable now : nat -> float.

Local Abbreviation run_turn' := (run_turn args verbosity training accept_token now).
Local Abbreviation iteration' :=
  (iteration args verbosity training accept_token now).
Local Abbreviation repl' := (repl args verbosity training accept_token now).

Lemma iteration_eq (line : option string) (s : Session) :
  iteration' line s =
  let s0 := with_current_pos 0 s in
  match line with
  | None => (prompt_mark verbosity, Ok false s0)
  | Some l =>
      if is_quit l then (prompt_mark verbosity, Ok false s0)
      else if is_clear l then (prompt_mark verbosity, Ok true (with_abs_pos 0 s0))
      else match run_turn' l s0 with
           | (t, Ok _ s1) => (prompt_mark verbosity ++ t, Ok true s1)
           | (t, Abort msg) => (prompt_mark verbosity ++ t, Abort msg)
           end
  end.
Proof.
  unfold iteration, prompt_mark, bind, set_current_pos, when,
    emit, ret, set_abs_pos.
  destruct line as [l|]; simpl.
  - destruct (is_quit l); [destruct (1 <=? verbosity); reflexivity|].
    destruct (is_clear l); [destruct (1 <=? verbosity); reflexivity|].
    destruct (1 <=? verbosity); simpl;
      destruct (run_turn' l _) as [t [u s1|msg]]; simpl;
      rewrite ?app_nil_r; reflexivity.
  - destruct (1 <=? verbosity); reflexivity.
Qed.

Lemma repl_nil (s : Session) :
  repl' [] s =
  if abs_pos s <? max_tokens args
  then (prompt_mark verbosity, Returned (with_current_pos 0 s))
  else (exceeded_message args, Exceeded s).
Proof.
  simpl. rewrite iteration_eq. reflexivity.
Qed.

Lemma repl_cons (line : string) (rest : list string) (s : Session) :
  repl' (line :: rest) s =
  if abs_pos s <? max_tokens args then
    match iteration' (Some line) s with
    | (t, Ok true s1) => let (t', e) := repl' rest s1 in (t ++ t', e)
    | (t, Ok false s1) => (t, Returned s1)
    | (t, Abort msg) => (t, Aborted msg)
    end
  else (exceeded_message args, Exceeded s).
Proof. reflexivity. Qed.

Lemma prompt_mark_calls : calls (prompt_mark verbosity) = [].
Proof. unfold prompt_mark; destruct (1 <=? verbosity); reflexivity. Qed.

Lemma turn_footer_calls (s : Session) (a b : float) :
  calls (turn_footer verbosity s a b) = [].
Proof. unfold turn_footer; destruct (2 <=? verbosity); reflexivity. Qed.

(** A turn calls the generator at most once, with the encoded line, token
    2 in front when the turn starts at position 0. *)
Lemma run_turn_calls (line : string) (s : Session) :
  calls (fst (run_turn' line s)) =
  match Encode (template_prompt training (abs_pos s) line) with
  | None => []
  | Some encoded => [(with_bos (abs_pos s) encoded, abs_pos s)]
  end.
Proof.
  rewrite run_turn_eq.
  destruct (Encode _) as [encoded|]; [|reflexivity]. cbv zeta.
  match goal with |- context [run_gen ?a ?v ?p ?s1] =>
    pose proof (run_gen_calls a v p s1) as Hg;
    destruct (run_gen a v p s1) as [tg [u s2|msg]] end;
    simpl in *; rewrite ?calls_app, Hg, ?turn_footer_calls; reflexivity.
Qed.

Lemma iteration_calls (line : string) (s : Session) :
  calls (fst (iteration' (Some line) s)) =
  if is_quit line || is_clear line then []
  else match Encode (template_prompt training (abs_pos s) line) with
       | None => []
       | Some encoded => [(with_bos (abs_pos s) encoded, abs_pos s)]
       end.
Proof.
  rewrite iteration_eq. cbv zeta.
  destruct (is_quit line); [apply prompt_mark_calls|].
  destruct (is_clear line); [apply prompt_mark_calls|]. simpl orb.
  pose proof (run_turn_calls line (with_current_pos 0 s)) as Hc.
  destruct (run_turn' line _) as [t [u s1|msg]]; simpl in *;
    rewrite calls_app, prompt_mark_calls, Hc; reflexivity.
Qed.

Lemma run_turn_ok (line : string) (s : Session) t u s' :
  run_turn' line s = (t, Ok u s') ->
  0 <= abs_pos s -> 0 <= abs_pos s'.
Proof.
  rewrite run_turn_eq.
  destruct (Encode _) as [encoded|]; [|discriminate]. cbv zeta.
  destruct (run_gen _ _ _ _) as [tg [u2 s2|msg]] eqn:E; [|discriminate].
  intros [= <- <- <-]. apply run_gen_ok in E as (_ & _ & Hp). exact Hp.
Qed.

Lemma iteration_ok (line : option string) (s : Session) t b s' :
  iteration' line s = (t, Ok b s') ->
  0 <= abs_pos s -> 0 <= abs_pos s'.
Proof.
  rewrite iteration_eq. cbv zeta.
  destruct line as [l|]; [|intros [= <- <- <-]; simpl; auto].
  destruct (is_quit l); [intros [= <- <- <-]; simpl; auto|].
  destruct (is_clear l); [intros [= <- <- <-]; simpl; lia|].
  destruct (run_turn' l _) as [t1 [u s1|msg]] eqn:E; [|discriminate].
  intros [= <- <- <-] Hp. apply run_turn_ok in E; exact E || exact Hp.
Qed.
End Loop.

(** ** Prompt templating *)

Lemma template_prompt_wrapped (training : ModelTraining) (pos : Z)
    (text : string) :
  template_prompt training pos text = wrapped_text training pos text.
Proof.
  unfold template_prompt, wrapped_text.
  destruct training; [destruct (0 <? pos)|]; reflexivity.
Qed.

(** ** The prompt size *)

Section PromptSize.
Context `{Platform}.
Variable args : InferenceArgs.
Variable verbosity : Z.
Variable training : ModelTraining.
Variable accept_token : Z -> bool.
Variable now : nat -> float.

End PromptSize.

(** ** The callback *)

Section CallbackClaims.
Context `{Platform}.
Variable args : InferenceArgs.
Variable verbosity : Z.

(** The token that brings [current_pos] to [prompt_size] is not answered
    with the progress dot: it is decoded and printed. *)
Lemma stream_token_at_prompt_size (token : Z) (s : Session) (text : string) :
  current_pos s + 1 = prompt_size s ->
  token <> EOS_ID ->
  Decode [token] = Some text ->
  stream_token args verbosity token s = ([Cout text], Ok true (bump s)).
Proof.
  intros Hc Ht Hd. rewrite stream_token_eq, Hd.
  destruct (current_pos s + 1 <? prompt_size s) eqn:E1;
    [apply Z.ltb_lt in E1; lia|].
  destruct (token =? EOS_ID) eqn:E2; [apply Z.eqb_eq in E2; contradiction|].
  unfold text_events.
  destruct (current_pos s + 1 =? prompt_size s + 1) eqn:E3;
    [apply Z.eqb_eq in E3; lia|reflexivity].
Qed.

(** An end-of-sequence token outside the prefill phase: the position is
    set to 0 and the engine seeded again as the configuration says. *)
Lemma stream_token_eos (token : Z) (s : Session) :
  token = EOS_ID ->
  prompt_size s <= current_pos s + 1 ->
  exists s',
    stream_token args verbosity token s = (eos_marker verbosity, Ok true s')
    /\ abs_pos s' = (if multiturn args then abs_pos s + 1 else 0)
    /\ gen s' = (if negb (multiturn args) && deterministic args
                 then mt_seed 42 else gen s)
    /\ current_pos s' = current_pos s + 1
    /\ prompt_size s' = prompt_size s.
Proof.
  intros -> Hp. exists (after_eos args s). rewrite stream_token_eq.
  destruct (current_pos s + 1 <? prompt_size s) eqn:E1;
    [apply Z.ltb_lt in E1; lia|].
  rewrite Z.eqb_refl. unfold after_eos.
  destruct (multiturn args), (deterministic args); simpl; auto.
Qed.
End CallbackClaims.

(** ** The session loop *)

Section LoopClaims.
Context `{Platform}.
Variable args : InferenceArgs.
Variable verbosity : Z.
Variable training : ModelTraining.
Variable accept_token : Z -> bool.
Variable now : nat -> float.

Local Abbreviation run_turn' :=
  (run_turn args verbosity training accept_token now).
Local Abbreviation iteration' :=
  (iteration args verbosity training accept_token now).
Local Abbreviation repl' := (repl args verbosity training accept_token now).

Lemma iteration_call_facts (line : string) (s : Session) :
  Forall (call_of_turn training line (abs_pos s)) (calls (fst (iteration' (Some line) s))).
Proof.
  rewrite iteration_calls.
  destruct (is_quit line || is_clear line); [constructor|].
  destruct (Encode _) as [encoded|] eqn:E; constructor; [|constructor].
  split; [reflexivity|]. exists encoded. split; [exact E|reflexivity].
Qed.

Lemma is_quit_commands (line : string) :
  line = "%q" \/ line = "%Q" -> is_quit line = true.
Proof. intros [-> | ->]; reflexivity. Qed.

Lemma is_clear_commands (line : string) :
  line = "%c" \/ line = "%C" -> is_quit line = false /\ is_clear line = true.
Proof. intros [-> | ->]; split; reflexivity. Qed.

(** C8: a line "%q" or "%Q", like a failed read, makes [ReplGemma] return
    at once: after the prompt sign nothing is printed and the generator is
    not called, whatever lines would follow; a session whose input has the
    command behaves as if the input ended there. *)
Theorem quit_ends_session (line : string) (rest : list string) :
  line = "%q" \/ line = "%Q" ->
  (forall s, abs_pos s < max_tokens args ->
     repl' (line :: rest) s = (prompt_mark verbosity, Returned (with_current_pos 0 s))
     /\ repl' [] s = (prompt_mark verbosity, Returned (with_current_pos 0 s)))
  /\ (forall pre s, repl' (pre ++ line :: rest) s = repl' pre s)
  /\ calls (prompt_mark verbosity) = [].
Proof.
  intros Hq. apply is_quit_commands in Hq.
  assert (Hhead : forall s, repl' (line :: rest) s = repl' [] s).
  { intros s. rewrite repl_cons, repl_nil, iteration_eq. cbv zeta.
    rewrite Hq. reflexivity. }
  split; [|split].
  - intros s Hs. rewrite Hhead, repl_nil.
    apply Z.ltb_lt in Hs. rewrite Hs. split; reflexivity.
  - induction pre as [|l pre IH]; intros s; [apply Hhead|].
    rewrite <- app_comm_cons, !repl_cons.
    destruct (abs_pos s <? max_tokens args); [|reflexivity].
    destruct (iteration' (Some l) s) as [t [[|] s1|msg]]; try reflexivity.
    rewrite IH. reflexivity.
  - apply prompt_mark_calls.
Qed.

(** C7: a line "%c" or "%C" sets [abs_pos] to 0 whatever it was and changes
    nothing else: the engine is not seeded again, and [prompt_size], the
    cache and the clock count stay ([current_pos] was set to 0 at the top of
    the pass, as in every pass).  The loop goes on with the next line, its
    condition [abs_pos < max_tokens] holding. *)
Theorem clear_resets_abs_pos (line : string) (rest : list string)
    (s : Session) :
  line = "%c" \/ line = "%C" ->
  0 <= abs_pos s < max_tokens args ->
  exists s',
    iteration' (Some line) s = (prompt_mark verbosity, Ok true s')
    /\ repl' (line :: rest) s =
       (let (t, e) := repl' rest s' in (prompt_mark verbosity ++ t, e))
    /\ s' = with_abs_pos 0 (with_current_pos 0 s)
    /\ abs_pos s' = 0 /\ abs_pos s' < max_tokens args
    /\ gen s' = gen s /\ prompt_size s' = prompt_size s
    /\ cache s' = cache s /\ ticks s' = ticks s
    /\ current_pos s' = 0.
Proof.
  intros Hc Hs. apply is_clear_commands in Hc as [Hq Hc].
  exists (with_abs_pos 0 (with_current_pos 0 s)).
  assert (Hit : iteration' (Some line) s
                = (prompt_mark verbosity,
                   Ok true (with_abs_pos 0 (with_current_pos 0 s)))).
  { rewrite iteration_eq. cbv zeta. rewrite Hq, Hc. reflexivity. }
  split; [exact Hit|]. split.
  - rewrite repl_cons, Hit.
    destruct (abs_pos s <? max_tokens args) eqn:E; [reflexivity|].
    apply Z.ltb_ge in E. lia.
  - simpl. repeat split; try reflexivity. lia.
Qed.


End LoopClaims.

(** ** Determinism *)

Section Clock.
Context `{Platform}.
Variable args : InferenceArgs.
Variable verbosity : Z.
Variable training : ModelTraining.
Variable accept_token : Z -> bool.

Lemma turn_footer_clock (s : Session) (a1 b1 a2 b2 : float) :
  map erase_timing (turn_footer verbosity s a1 b1)
  = map erase_timing (turn_footer verbosity s a2 b2)
  /\ (verbosity < 2 ->
      turn_footer verbosity s a1 b1 = turn_footer verbosity s a2 b2).
Proof.
  unfold turn_footer. destruct (2 <=? verbosity) eqn:E.
  - split; [reflexivity|]. apply Z.leb_le in E. lia.
  - split; reflexivity.
Qed.

Lemma run_turn_clock (now1 now2 : nat -> float) (line : string)
    (s : Session) :
  same_but_timing verbosity
    (run_turn args verbosity training accept_token now1 line s)
    (run_turn args verbosity training accept_token now2 line s).
Proof.
  unfold same_but_timing. rewrite !run_turn_eq.
  destruct (Encode _) as [encoded|]; [|repeat split]. cbv zeta.
  destruct (run_gen _ _ _ _) as [tg [u s2|msg]]; [|repeat split].
  destruct (turn_footer_clock s2 (now1 (ticks s)) (now1 (ticks s2))
                              (now2 (ticks s)) (now2 (ticks s2))) as [He Hq].
  simpl fst; simpl snd. split; [reflexivity|]. split.
  - simpl. rewrite !map_app, He. reflexivity.
  - intros Hv. rewrite (Hq Hv). reflexivity.
Qed.

Lemma iteration_clock (now1 now2 : nat -> float) (line : option string)
    (s : Session) :
  same_but_timing verbosity
    (iteration args verbosity training accept_token now1 line s)
    (iteration args verbosity training accept_token now2 line s).
Proof.
  rewrite !iteration_eq. cbv zeta.
  destruct line as [l|]; [|repeat split].
  destruct (is_quit l); [repeat split|].
  destruct (is_clear l); [repeat split|].
  destruct (run_turn_clock now1 now2 l (with_current_pos 0 s))
    as (Hs & He & Hq).
  destruct (run_turn _ _ _ _ now1 _ _) as [t1 r1],
           (run_turn _ _ _ _ now2 _ _) as [t2 r2].
  simpl in Hs, He, Hq. subst r2. unfold same_but_timing.
  destruct r1 as [u s1|msg]; simpl; rewrite !map_app, He;
    (split; [reflexivity|]); (split; [reflexivity|]);
    intros Hv; rewrite (Hq Hv); reflexivity.
Qed.

Lemma repl_clock (now1 now2 : nat -> float) (input : list string) :
  forall s,
    same_but_timing verbosity
      (repl args verbosity training accept_token now1 input s)
      (repl args verbosity training accept_token now2 input s).
Proof.
  induction input as [|line rest IH]; intros s.
  - rewrite !repl_nil. repeat split.
  - rewrite !repl_cons.
    destruct (abs_pos s <? max_tokens args); [|repeat split].
    destruct (iteration_clock now1 now2 (Some line) s) as (Hs & He & Hq).
    destruct (iteration _ _ _ _ now1 _ _) as [t1 r1],
             (iteration _ _ _ _ now2 _ _) as [t2 r2].
    simpl in Hs, He, Hq. subst r2.
    destruct r1 as [[|] s1|msg]; try (split; [reflexivity|split; assumption]).
    destruct (IH s1) as (Hs' & He' & Hq').
    destruct (repl _ _ _ _ now1 rest s1) as [t1' e1],
             (repl _ _ _ _ now2 rest s1) as [t2' e2].
    simpl in *. subst e2. unfold same_but_timing; simpl.
    rewrite !map_app, He, He'. split; [reflexivity|]. split; [reflexivity|].
    intros Hv. rewrite (Hq Hv), (Hq' Hv). reflexivity.
Qed.
End Clock.

(** C6 (as amended): the engine starts from seed 42 when [deterministic],
    from [rd()] otherwise.  Two deterministic sessions on the same model and
    the same input lines end alike and print the same, whatever the entropy
    source and the clock give, up to the tokens-per-second figure of
    verbosity 2 and above, which is computed from the clock. *)
Theorem deterministic_sessions_agree `{Platform} (model : Gemma)
    (args : InferenceArgs) (verbosity : Z) (accept_token : Z -> bool)
    (input : list string) (w1 w2 : World) :
  gen (initial_session model args w1)
  = (if deterministic args then mt_seed 42 else mt_seed (random_device w1))
  /\ (deterministic args = true ->
      same_but_timing verbosity
        (ReplGemma model args verbosity accept_token w1 input)
        (ReplGemma model args verbosity accept_token w2 input)).
Proof.
  split; [reflexivity|]. intros Hd. unfold ReplGemma.
  assert (Hinit : initial_session model args w1
                  = initial_session model args w2)
    by (unfold initial_session; rewrite Hd; reflexivity).
  rewrite Hinit. apply repl_clock.
Qed.

(** ** Sessions on the small platform *)




(** C3, the code at the boundary: with a prompt of 3 tokens, the third token
    streamed ([current_pos] becomes 3 = [prompt_size]) is decoded and written
    to standard output; no progress dot is written. *)
Theorem last_prompt_token_is_printed :
  @stream_token Demo.bytes Demo.single_turn 1 105
    (Demo.state Demo.encode_bytes Demo.decode_bytes 2 2 3)
  = ([Cout "i"], Ok true (Demo.state Demo.encode_bytes Demo.decode_bytes 3 3 3)).
Proof.
  apply (@stream_token_at_prompt_size Demo.bytes); [reflexivity|discriminate|reflexivity].
Qed.

Lemma eight_is_not_four : 8%float <> 4%float.
Proof.
  intros E. apply (f_equal (fun x => PrimFloat.eqb x 8%float)) in E.
  vm_compute in E. discriminate.
Qed.

Lemma doubles_differ (t1 t2 : list Event) (x y : float) :
  Demo.doubles t1 = [x] -> Demo.doubles t2 = [y] -> x <> y -> t1 <> t2.
Proof.
  intros H1 H2 Hxy E. subst t2. rewrite H1 in H2. now injection H2.
Qed.

(** C6, the claim as stated fails: two deterministic sessions on the same
    line at verbosity 2, one with a clock twice as slow, print different
    tokens-per-second figures. *)
Lemma clock_shows_in_output :
  deterministic Demo.single_turn = true
  /\ Demo.doubles
       (fst (@ReplGemma Demo.bytes Demo.pretrained Demo.single_turn 2
               Demo.accept_all (Demo.world 7 0 1) ["hi"])) = [8%float]
  /\ Demo.doubles
       (fst (@ReplGemma Demo.bytes Demo.pretrained Demo.single_turn 2
               Demo.accept_all (Demo.world 7 0 2) ["hi"])) = [4%float]
  /\ fst (@ReplGemma Demo.bytes Demo.pretrained Demo.single_turn 2
            Demo.accept_all (Demo.world 7 0 1) ["hi"])
     <> fst (@ReplGemma Demo.bytes Demo.pretrained Demo.single_turn 2
               Demo.accept_all (Demo.world 7 0 2) ["hi"]).
Proof.
  split; [reflexivity|].
  assert (H1 : Demo.doubles
       (fst (@ReplGemma Demo.bytes Demo.pretrained Demo.single_turn 2
               Demo.accept_all (Demo.world 7 0 1) ["hi"])) = [8%float])
    by (vm_compute; reflexivity).
  assert (H2 : Demo.doubles
       (fst (@ReplGemma Demo.bytes Demo.pretrained Demo.single_turn 2
               Demo.accept_all (Demo.world 7 0 2) ["hi"])) = [4%float])
    by (vm_compute; reflexivity).
  split; [exact H1|]. split; [exact H2|].
  apply (doubles_differ _ _ _ _ H1 H2). apply eight_is_not_four.
Qed.

Lemma deterministic_sessions_agree_witness :
  deterministic Demo.single_turn = true
  /\ same_but_timing 2
       (@ReplGemma Demo.bytes Demo.pretrained Demo.single_turn 2
          Demo.accept_all (Demo.world 7 0 1) ["hi"; "yo"])
       (@ReplGemma Demo.bytes Demo.pretrained Demo.single_turn 2
          Demo.accept_all (Demo.world 9 5 2) ["hi"; "yo"]).
Proof.
  split; [reflexivity|].
  exact (proj2 (@deterministic_sessions_agree Demo.bytes Demo.pretrained
                  Demo.single_turn 2 Demo.accept_all ["hi"; "yo"]
                  (Demo.world 7 0 1) (Demo.world 9 5 2)) eq_refl).
Defined.

Lemma clear_resets_abs_pos_witness :
  ("%c" = "%c" \/ "%c" = "%C")
  /\ 0 <= abs_pos (Demo.state Demo.encode_bytes Demo.decode_bytes 7 4 3)
       < max_tokens Demo.single_turn
  /\ @repl Demo.bytes Demo.single_turn 1 GEMMA_PT Demo.accept_all
       (Now (Demo.world 7 0 1)) ["%c"; "%q"]
       (Demo.state Demo.encode_bytes Demo.decode_bytes 7 4 3)
     = ([Cout "> "; Cout "> "],
        Returned (Demo.state Demo.encode_bytes Demo.decode_bytes 0 0 3)).
Proof.
  assert (Hs : 0 <= abs_pos (Demo.state Demo.encode_bytes Demo.decode_bytes 7 4 3)
               < max_tokens Demo.single_turn) by (simpl; lia).
  split; [left; reflexivity|]. split; [exact Hs|].
  destruct (@clear_resets_abs_pos Demo.bytes Demo.single_turn 1 GEMMA_PT
              Demo.accept_all (Now (Demo.world 7 0 1)) "%c" ["%q"]
              (Demo.state Demo.encode_bytes Demo.decode_bytes 7 4 3)
              (or_introl eq_refl) Hs) as (s' & _ & Hrepl & -> & _).
  rewrite Hrepl. reflexivity.
Defined.

Lemma quit_ends_session_witness :
  ("%Q" = "%q" \/ "%Q" = "%Q")
  /\ @repl Demo.bytes Demo.single_turn 1 GEMMA_PT Demo.accept_all
       (Now (Demo.world 7 0 1)) (["hi"] ++ "%Q" :: ["yo"])
       (Demo.state Demo.encode_bytes Demo.decode_bytes 0 0 0)
     = @repl Demo.bytes Demo.single_turn 1 GEMMA_PT Demo.accept_all
         (Now (Demo.world 7 0 1)) ["hi"]
         (Demo.state Demo.encode_bytes Demo.decode_bytes 0 0 0).
Proof.
  split; [right; reflexivity|].
  exact (proj1 (proj2 (@quit_ends_session Demo.bytes Demo.single_turn 1
                         GEMMA_PT Demo.accept_all (Now (Demo.world 7 0 1))
                         "%Q" ["yo"] (or_intror eq_refl)))
               ["hi"] _).
Defined.


(** ** Further properties of the callback *)

Lemma strip_leading_blank (c : ascii) (r : string) :
  is_blank c = true -> strip_leading (String c r) = strip_leading r.
Proof.
  intros Hc. unfold strip_leading. simpl. rewrite Hc.
  destruct (find_first_not_of_blank r); reflexivity.
Qed.

Lemma strip_leading_other (c : ascii) (r : string) :
  is_blank c = false -> strip_leading (String c r) = String c r.
Proof. intros Hc. unfold strip_leading. simpl. rewrite Hc. reflexivity. Qed.

(** X1: what line 130 leaves of the first response token: the text without
    its leading blanks (space, tab, newline) and nothing else removed; a token
    that is all blanks becomes the empty string; stripping twice changes
    nothing more. *)
Theorem first_token_strip (token_text : string) :
  (exists blanks,
      token_text = (blanks ++ strip_leading token_text)%string /\
      forallb is_blank (list_ascii_of_string blanks) = true)
  /\ match strip_leading token_text with
     | EmptyString => forallb is_blank (list_ascii_of_string token_text) = true
     | String c _ => is_blank c = false
     end
  /\ strip_leading (strip_leading token_text) = strip_leading token_text.
Proof.
  induction token_text as [|c r (( blanks & Heq & Hb) & Hhead & Hidem)].
  - split; [exists EmptyString; split; reflexivity|]. split; reflexivity.
  - destruct (is_blank c) eqn:Hc.
    + rewrite (strip_leading_blank c r Hc). split; [|split].
      * exists (String c blanks). simpl. rewrite Hc, Hb, <- Heq.
        split; reflexivity.
      * destruct (strip_leading r); [simpl; rewrite Hc; exact Hhead|exact Hhead].
      * exact Hidem.
    + rewrite (strip_leading_other c r Hc). split; [|split].
      * exists EmptyString. split; reflexivity.
      * exact Hc.
      * apply strip_leading_other, Hc.
Qed.

Section CallbackRuns.
Context `{Platform}.
Variable args : InferenceArgs.
Variable verbosity : Z.

Lemma advance_bump (n : Z) (s : Session) :
  advance n (bump s) = advance (n + 1) s.
Proof.
  unfold advance, bump, with_current_pos, with_abs_pos; simpl.
  f_equal; lia.
Qed.

(** X2: while the prompt is echoed, each token streamed costs one dot on
    standard error and one step of both counters, and nothing else happens:
    the token is not decoded and not compared with [EOS_ID], so a token the
    tokenizer rejects does not abort and an end-of-sequence id resets
    nothing. *)
Theorem echo_prints_dots (toks : list Z) (k : GenProg KVCache) (s : Session) :
  current_pos s + Z.of_nat (length toks) < prompt_size s ->
  run_gen args verbosity (echo toks k) s =
  (repeat (Cerr ".") (length toks)
     ++ fst (run_gen args verbosity k (advance (Z.of_nat (length toks)) s)),
   snd (run_gen args verbosity k (advance (Z.of_nat (length toks)) s))).
Proof.
  revert s. induction toks as [|token rest IH]; intros s Hlt.
  - simpl. replace (advance 0 s) with s; [now destruct (run_gen _ _ k s)|].
    unfold advance, with_current_pos, with_abs_pos. destruct s; simpl.
    f_equal; lia.
  - cbn [echo run_gen length]. unfold bind. rewrite stream_token_eq.
    cbn [length] in Hlt. rewrite Nat2Z.inj_succ in Hlt.
    destruct (current_pos s + 1 <? prompt_size s) eqn:E;
      [|apply Z.ltb_ge in E; lia].
    rewrite IH by (simpl; lia).
    rewrite advance_bump, Nat2Z.inj_succ.
    replace (Z.succ (Z.of_nat (length rest))) with (Z.of_nat (length rest) + 1)
      by lia.
    reflexivity.
Qed.

(** X3: the callback never asks the generator to stop: a generator call
    runs as the generator does when every answer is [true], and what the
    generator would do on [false] is never run. *)
Theorem callback_never_stops (p : GenProg KVCache) (s : Session) :
  run_gen args verbosity p s = run_gen args verbosity (follow_true p) s.
Proof.
  revert s. induction p as [kv|token k IH|k IH]; intros s; simpl.
  - reflexivity.
  - unfold bind.
    destruct (stream_token args verbosity token s) as [t [b s1|msg]] eqn:E;
      [|reflexivity].
    apply stream_token_ok in E as (-> & _). rewrite IH. reflexivity.
  - unfold bind, get, set_gen; simpl. rewrite IH. reflexivity.
Qed.
End CallbackRuns.

(** ** The counters and the engine through a generator call *)

Section GeneratorCalls.
Context `{Platform}.
Variable args : InferenceArgs.
Variable verbosity : Z.

Lemma stream_token_counters (token : Z) (s : Session) t b s' :
  stream_token args verbosity token s = (t, Ok b s') ->
  current_pos s' = current_pos s + 1 /\
  (abs_pos s' = abs_pos s + 1 \/ abs_pos s' = 0 /\ multiturn args = false) /\
  (gen s' = gen s \/
   gen s' = mt_seed 42 /\ multiturn args = false /\ deterministic args = true).
Proof.
  rewrite stream_token_eq.
  destruct (current_pos s + 1 <? prompt_size s);
    [intros [= <- <- <-]; simpl; auto|].
  destruct (token =? EOS_ID).
  - intros [= <- <- <-]. unfold after_eos.
    destruct (multiturn args), (deterministic args); simpl; auto 6.
  - destruct (Decode [token]); [|discriminate].
    intros [= <- <- <-]; simpl; auto.
Qed.

Lemma run_gen_counters (p : GenProg KVCache) :
  forall s t u s',
    run_gen args verbosity p s = (t, Ok u s') ->
    0 <= abs_pos s ->
    current_pos s <= current_pos s' /\
    0 <= abs_pos s' <= abs_pos s + (current_pos s' - current_pos s) /\
    (multiturn args = true ->
     abs_pos s' = abs_pos s + (current_pos s' - current_pos s)) /\
    (streams_first p -> current_pos s + 1 <= current_pos s').
Proof.
  induction p as [kv|token k IH|k IH]; intros s t u s'; simpl.
  - intros [= <- <- <-] Hs. simpl. repeat split; intros; lia.
  - unfold bind.
    destruct (stream_token args verbosity token s) as [t1 [b s1|msg]] eqn:E;
      [|discriminate].
    apply stream_token_counters in E as (Hc & Ha & _).
    destruct (run_gen _ _ _ s1) as [t2 r] eqn:E2.
    intros [= <- ->] Hs.
    assert (Hs1 : 0 <= abs_pos s1) by (destruct Ha as [Ha|[Ha _]]; lia).
    destruct (IH b s1 t2 u s' E2 Hs1) as (Hcur & Habs & Hmulti & _).
    split; [lia|]. split; [destruct Ha as [Ha|[Ha _]]; lia|].
    split; [|intros _; lia].
    intros Hm. specialize (Hmulti Hm).
    destruct Ha as [Ha|[Ha Hm']]; [lia|congruence].
  - unfold bind, get, set_gen; simpl.
    destruct (run_gen _ _ _ _) as [t2 r] eqn:E2.
    intros [= <- ->] Hs.
    destruct (IH _ _ _ _ _ E2 Hs) as (Hcur & Habs & Hmulti & Hfirst).
    simpl in *. repeat split; try lia; auto.
Qed.

Lemma run_gen_abort (p : GenProg KVCache) :
  forall s t msg,
    run_gen args verbosity p s = (t, Abort msg) ->
    msg = ("Assert " ++ decode_cond)%string.
Proof.
  induction p as [kv|token k IH|k IH]; intros s t msg; simpl.
  - discriminate.
  - unfold bind.
    destruct (stream_token args verbosity token s) as [t1 [b s1|m]] eqn:E.
    + destruct (run_gen _ _ _ s1) as [t2 r] eqn:E2.
      intros [= <- ->]. exact (IH _ _ _ _ E2).
    + apply stream_token_abort in E as (_ & -> & _). now intros [= <- <-].
  - unfold bind, get, set_gen; simpl.
    destruct (run_gen _ _ _ _) as [t2 r] eqn:E2.
    intros [= <- ->]. exact (IH _ _ _ _ E2).
Qed.

(** Without a deterministic single-turn configuration, a generator call
    moves the engine by draws only. *)
Lemma run_gen_engine (p : GenProg KVCache) :
  multiturn args = true \/ deterministic args = false ->
  forall s t u s',
    run_gen args verbosity p s = (t, Ok u s') ->
    exists n, gen s' = Nat.iter n draw (gen s).
Proof.
  intros Hcfg.
  induction p as [kv|token k IH|k IH]; intros s t u s'; simpl.
  - intros [= <- <- <-]. exists 0%nat. reflexivity.
  - unfold bind.
    destruct (stream_token args verbosity token s) as [t1 [b s1|msg]] eqn:E;
      [|discriminate].
    apply stream_token_counters in E as (_ & _ & Hg).
    destruct (run_gen _ _ _ s1) as [t2 r] eqn:E2.
    intros [= <- ->]. destruct (IH _ _ _ _ _ E2) as [n Hn]. exists n.
    destruct Hg as [Hg|(_ & Hm & Hd)]; [congruence|].
    destruct Hcfg; congruence.
  - unfold bind, get, set_gen; simpl.
    destruct (run_gen _ _ _ _) as [t2 r] eqn:E2.
    intros [= <- ->]. destruct (IH _ _ _ _ _ E2) as [n Hn]. simpl in Hn.
    exists (S n). rewrite Nat.iter_succ_r. exact Hn.
Qed.
End GeneratorCalls.

(** ** Further properties of the session loop *)

Section SessionFacts.
Context `{Platform}.
Variable args : InferenceArgs.
Variable verbosity : Z.
Variable training : ModelTraining.
Variable accept_token : Z -> bool.
Variable now : nat -> float.

Local Abbreviation iteration' :=
  (iteration args verbosity training accept_token now).
Local Abbreviation repl' := (repl args verbosity training accept_token now).
Local Abbreviation generate' :=
  (fun s encoded =>
     GenerateGemma training (cache s) args (with_bos (abs_pos s) encoded)
                   (abs_pos s) accept_token verbosity).

(** The four ways through the loop body for a line that was read. *)
Lemma iteration_cases (line : string) (s : Session) :
  exists t',
    fst (iteration' (Some line) s) = prompt_mark verbosity ++ t' /\
    ((is_quit line = true /\
      snd (iteration' (Some line) s) = Ok false (with_current_pos 0 s))
     \/ (is_quit line = false /\ is_clear line = true /\
         snd (iteration' (Some line) s)
         = Ok true (with_abs_pos 0 (with_current_pos 0 s)))
     \/ (is_command line = false /\
         Encode (template_prompt training (abs_pos s) line) = None /\
         snd (iteration' (Some line) s)
         = Abort ("Assert " ++ encode_cond)%string)
     \/ (is_command line = false /\
         exists encoded tg r,
           Encode (template_prompt training (abs_pos s) line) = Some encoded /\
           run_gen args verbosity (generate' s encoded) (turn_start s encoded)
           = (tg, r) /\
           snd (iteration' (Some line) s)
           = match r with
             | Ok _ s2 => Ok true (tick s2)
             | Abort msg => Abort msg
             end)).
Proof.
  rewrite iteration_eq. cbv zeta. unfold is_command.
  destruct (is_quit line);
    [exists []; rewrite app_nil_r; split; [reflexivity|]; left; split;
     reflexivity|].
  destruct (is_clear line);
    [exists []; rewrite app_nil_r; split; [reflexivity|]; right; left;
     repeat split; reflexivity|].
  rewrite run_turn_eq. simpl abs_pos. simpl cache.
  destruct (Encode _) as [encoded|] eqn:Ee.
  - cbv zeta.
    destruct (run_gen _ _ _ _) as [tg [u s2|msg]] eqn:Eg; simpl fst; simpl snd;
      eexists; (split; [reflexivity|]); right; right; right;
      (split; [reflexivity|]); exists encoded, tg; eexists;
      (split; [reflexivity|]); (split; [exact Eg|]); reflexivity.
  - exists encode_abort. simpl. split; [reflexivity|]. right; right; left.
    repeat split; reflexivity.
Qed.

(** X4: across one pass of the loop body [abs_pos] stays non-negative and
    grows by at most the number of tokens streamed in the pass
    ([current_pos] at its end); in a multiturn session it grows by exactly
    that number, unless the line was the clear command. *)
Theorem turn_counters (line : string) (s : Session) :
  0 <= abs_pos s ->
  match snd (iteration' (Some line) s) with
  | Ok _ s' =>
      0 <= current_pos s'
      /\ 0 <= abs_pos s' <= abs_pos s + current_pos s'
      /\ (multiturn args = true -> is_clear line = false ->
          abs_pos s' = abs_pos s + current_pos s')
  | Abort _ => True
  end.
Proof.
  intros Hs.
  destruct (iteration_cases line s)
    as (t' & _ & [(_ & ->)|[(_ & Hc & ->)|[(_ & _ & ->)|(_ & encoded & tg & r & _ & Eg & ->)]]]).
  - simpl. repeat split; intros; lia.
  - simpl. repeat split; intros; try lia. congruence.
  - exact I.
  - destruct r as [u s2|msg]; [|exact I].
    apply run_gen_counters in Eg as (Hcur & Habs & Hmulti & _);
      [|exact Hs].
    simpl in *. split; [lia|]. split; [lia|].
    intros Hm _. specialize (Hmulti Hm). lia.
Qed.

(** X5: how a session can end.  After [return] the position is below
    [max_tokens] and [current_pos] is 0; after the loop is left the position
    is at or above [max_tokens] and the message is the last thing printed;
    an abort carries one of the two asserted conditions. *)
Theorem exit_postcondition (input : list string) (s : Session) :
  match snd (repl' input s) with
  | Returned s' => abs_pos s' < max_tokens args /\ current_pos s' = 0
  | Exceeded s' =>
      max_tokens args <= abs_pos s' /\
      exists t, fst (repl' input s) = t ++ exceeded_message args
  | Aborted msg =>
      msg = ("Assert " ++ decode_cond)%string \/
      msg = ("Assert " ++ encode_cond)%string
  end.
Proof.
  revert s. induction input as [|line rest IH]; intros s.
  - rewrite repl_nil. destruct (abs_pos s <? max_tokens args) eqn:E; simpl.
    + apply Z.ltb_lt in E. auto.
    + apply Z.ltb_ge in E. split; [exact E|]. exists []. reflexivity.
  - rewrite repl_cons. destruct (abs_pos s <? max_tokens args) eqn:E.
    2:{ apply Z.ltb_ge in E. simpl. split; [exact E|]. exists []. reflexivity. }
    apply Z.ltb_lt in E.
    destruct (iteration_cases line s)
      as (t' & _ & [(_ & Hr)|[(_ & _ & Hr)|[(_ & _ & Hr)|(_ & encoded & tg & r & _ & Eg & Hr)]]]);
      destruct (iteration' (Some line) s) as [t res]; simpl in Hr; subst res.
    + simpl. auto.
    + specialize (IH (with_abs_pos 0 (with_current_pos 0 s))).
      destruct (repl' rest _) as [t2 e]. simpl in *.
      destruct e; auto. destruct IH as (Hm & t3 & ->). split; [exact Hm|].
      exists (t ++ t3). apply app_assoc.
    + simpl. auto.
    + destruct r as [u s2|msg].
      * specialize (IH (tick s2)).
        destruct (repl' rest _) as [t2 e]. simpl in *.
        destruct e; auto. destruct IH as (Hm & t3 & ->). split; [exact Hm|].
        exists (t ++ t3). apply app_assoc.
      * simpl. left. exact (run_gen_abort _ _ _ _ _ _ Eg).
Qed.

Lemma iteration_counters_ok (line : string) (s : Session) b s' :
  snd (iteration' (Some line) s) = Ok b s' ->
  counters_ok s -> counters_ok s' /\ 0 <= current_pos s'.
Proof.
  intros Hr [Ha Hp]. unfold counters_ok.
  destruct (iteration_cases line s)
    as (t' & _ & [(_ & Hq)|[(_ & _ & Hq)|[(_ & _ & Hq)|(_ & encoded & tg & r & _ & Eg & Hq)]]]);
    rewrite Hq in Hr.
  - injection Hr as _ <-. simpl. lia.
  - injection Hr as _ <-. simpl. lia.
  - discriminate.
  - destruct r as [u s2|msg]; [|discriminate]. injection Hr as _ <-.
    pose proof Eg as Eg'.
    apply run_gen_counters in Eg' as (Hcur & Habs & _ & _); [|exact Ha].
    apply run_gen_ok in Eg as (Hps & _). simpl in *. lia.
Qed.

(** X6: at the end of a session that did not abort, [abs_pos], [current_pos]
    and [prompt_size] are not negative; so the comparison of the signed
    [abs_pos] with [max_tokens] at line 141 never sees a negative value. *)
Theorem session_counters_nonneg (input : list string) (s : Session) :
  0 <= abs_pos s -> 0 <= current_pos s -> 0 <= prompt_size s ->
  match snd (repl' input s) with
  | Returned s' | Exceeded s' =>
      0 <= abs_pos s' /\ 0 <= current_pos s' /\ 0 <= prompt_size s'
  | Aborted _ => True
  end.
Proof.
  revert s. induction input as [|line rest IH]; intros s Ha Hc Hp.
  - rewrite repl_nil. destruct (_ <? _); simpl; repeat split; lia.
  - rewrite repl_cons. destruct (_ <? _); [|simpl; repeat split; lia].
    pose proof (iteration_counters_ok line s) as Hok.
    destruct (iteration' (Some line) s) as [t [b s1|msg]]; [|exact I].
    destruct (Hok b s1 eq_refl (conj Ha Hp)) as ((Ha1 & Hp1) & Hc1).
    destruct b; [|simpl; auto].
    specialize (IH s1 Ha1 Hc1 Hp1). destruct (repl' rest s1) as [t2 e].
    exact IH.
Qed.

(** X7: the generator is called at most once for each line that is not a
    command; the lines "%q", "%Q", "%c" and "%C" cause no call. *)
Theorem calls_bounded_by_prompts (input : list string) (s : Session) :
  (length (calls (fst (repl' input s)))
   <= length (filter (fun line => negb (is_command line)) input))%nat.
Proof.
  revert s. induction input as [|line rest IH]; intros s.
  - rewrite repl_nil. destruct (_ <? _); simpl;
      [rewrite prompt_mark_calls|]; apply Nat.le_refl.
  - rewrite repl_cons. destruct (_ <? _); [|apply Nat.le_0_l].
    pose proof (iteration_calls args verbosity training accept_token now line s)
      as Hc.
    assert (Hone : (length (calls (fst (iteration' (Some line) s)))
                    <= length (filter (fun l => negb (is_command l)) [line]))%nat).
    { rewrite Hc. unfold is_command. simpl.
      destruct (is_quit line || is_clear line); simpl; [apply Nat.le_refl|].
      destruct (Encode _); simpl; auto. }
    change (line :: rest) with ([line] ++ rest). rewrite filter_app, length_app.
    destruct (iteration' (Some line) s) as [t [[|] s1|msg]]; simpl fst in *;
      try (etransitivity; [exact Hone|apply Nat.le_add_r]).
    specialize (IH s1). destruct (repl' rest s1) as [t2 e]. simpl fst in *.
    rewrite calls_app, length_app. apply Nat.add_le_mono; assumption.
Qed.

(** X8: what a session has printed does not depend on the lines it has not
    read yet: with more lines appended to the input, the trace is the old
    one, possibly continued. *)
Theorem output_is_causal (input more : list string) (s : Session) :
  exists t', fst (repl' (input ++ more) s) = fst (repl' input s) ++ t'.
Proof.
  revert s. induction input as [|line rest IH]; intros s.
  - change ([] ++ more) with more. rewrite repl_nil.
    destruct more as [|l more]; [exists []; rewrite repl_nil, app_nil_r; reflexivity|].
    rewrite repl_cons. destruct (_ <? _); [|exists []; apply eq_sym, app_nil_r].
    destruct (iteration_cases l s) as (t' & Ht & _).
    destruct (iteration' (Some l) s) as [t [[|] s1|msg]]; simpl in Ht; subst t;
      simpl fst; try (exists t'; reflexivity).
    destruct (repl' more s1) as [t2 e]. simpl. exists (t' ++ t2).
    apply eq_sym, app_assoc.
  - rewrite <- app_comm_cons, !repl_cons.
    destruct (_ <? _); [|exists []; apply eq_sym, app_nil_r].
    destruct (iteration' (Some line) s) as [t [[|] s1|msg]];
      try (exists []; apply eq_sym, app_nil_r).
    destruct (IH s1) as [t' Ht'].
    destruct (repl' (rest ++ more) s1) as [t2 e2],
             (repl' rest s1) as [t1 e1].
    simpl in *. subst t2. exists t'. apply app_assoc.
Qed.

Lemma iteration_call_position (line : string) (s : Session) :
  calls (fst (iteration' (Some line) s)) = [] \/
  exists prompt, calls (fst (iteration' (Some line) s)) = [(prompt, abs_pos s)].
Proof.
  rewrite iteration_calls. destruct (is_quit line || is_clear line);
    [left; reflexivity|].
  destruct (Encode _) as [encoded|]; [right|left; reflexivity].
  eexists; reflexivity.
Qed.

(** X10: in a session that is multiturn or not deterministic the engine is
    never seeded again: at the end its state is the starting state moved by
    draws of the generator only.  Neither an end-of-sequence token nor the
    clear command touches it. *)
Theorem engine_never_reseeded (input : list string) (s : Session) :
  multiturn args = true \/ deterministic args = false ->
  match snd (repl' input s) with
  | Returned s' | Exceeded s' => exists n, gen s' = Nat.iter n draw (gen s)
  | Aborted _ => True
  end.
Proof.
  intros Hcfg. revert s. induction input as [|line rest IH]; intros s.
  - rewrite repl_nil. destruct (_ <? _); simpl; exists 0%nat; reflexivity.
  - rewrite repl_cons. destruct (_ <? _); [|exists 0%nat; reflexivity].
    assert (Hstep : match snd (iteration' (Some line) s) with
                    | Ok _ s1 => exists n, gen s1 = Nat.iter n draw (gen s)
                    | Abort _ => True
                    end).
    { destruct (iteration_cases line s)
        as (t' & _ & [(_ & ->)|[(_ & _ & ->)|[(_ & _ & ->)|(_ & encoded & tg & r & _ & Eg & ->)]]]);
        try (exists 0%nat; reflexivity); try exact I.
      destruct r as [u s2|msg]; [|exact I].
      apply (run_gen_engine args verbosity _ Hcfg) in Eg as [n Hn].
      exists n. exact Hn. }
    destruct (iteration' (Some line) s) as [t [[|] s1|msg]]; simpl in Hstep;
      try exact Hstep; try exact I.
    destruct Hstep as [n Hn]. specialize (IH s1).
    destruct (repl' rest s1) as [t2 e]. simpl in *.
    destruct e as [s'|s'|m]; try exact I;
      destruct IH as [m Hm]; exists (m + n)%nat;
      rewrite Nat.iter_add, <- Hn; exact Hm.
Qed.
(** X11: whatever the configuration, the first generator call of a loop
    that starts at position 0 is made at position 0, with token 2 in front
    of the encoded line: every session's first prompt begins with it. *)
Theorem first_call_has_bos (input : list string) (s : Session) :
  abs_pos s = 0 ->
  match calls (fst (repl' input s)) with
  | [] => True
  | (prompt, pos) :: _ =>
      pos = 0 /\
      exists line encoded,
        In line input /\
        Encode (template_prompt training 0 line) = Some encoded /\
        prompt = 2 :: encoded
  end.
Proof.
  revert s. induction input as [|line rest IH]; intros s Hs.
  - rewrite repl_nil. destruct (_ <? _); simpl;
      [rewrite prompt_mark_calls|]; exact I.
  - rewrite repl_cons. destruct (_ <? _); [|exact I].
    pose proof (iteration_calls args verbosity training accept_token now line s)
      as Hc.
    rewrite Hs in Hc.
    destruct (iteration_cases line s)
      as (t' & _ & [(Hq & Hr)|[(Hq & Hcl & Hr)|[(Hcmd & He & Hr)|(Hcmd & encoded & tg & r & He & _ & Hr)]]]);
      destruct (iteration' (Some line) s) as [t res]; simpl in Hr, Hc;
      subst res.
    + rewrite Hq in Hc. simpl in *. rewrite Hc. exact I.
    + rewrite Hq, Hcl in Hc. simpl in Hc.
      specialize (IH (with_abs_pos 0 (with_current_pos 0 s)) eq_refl).
      destruct (repl' rest _) as [t2 e]. simpl in *.
      rewrite calls_app, Hc. simpl.
      destruct (calls t2) as [|[prompt pos] l]; [exact I|].
      destruct IH as (Hp & l0 & encoded & Hin & He & Hpr).
      split; [exact Hp|]. exists l0, encoded. auto.
    + unfold is_command in Hcmd. rewrite Hs in He. rewrite Hcmd, He in Hc.
      simpl. rewrite Hc. exact I.
    + unfold is_command in Hcmd. rewrite Hcmd in Hc. rewrite Hs in He.
      rewrite He in Hc.
      assert (Hhead : match calls t with
                      | [] => True
                      | (prompt, pos) :: _ =>
                          pos = 0 /\
                          exists l0 enc,
                            In l0 (line :: rest) /\
                            Encode (template_prompt training 0 l0) = Some enc /\
                            prompt = 2 :: enc
                      end).
      { rewrite Hc. split; [reflexivity|]. exists line, encoded.
        split; [left; reflexivity|]. split; [exact He|reflexivity]. }
      destruct r as [u s2|msg]; [|exact Hhead].
      destruct (repl' rest (tick s2)) as [t2 e]. simpl.
      rewrite calls_app. rewrite Hc in *. exact Hhead.
Qed.

End SessionFacts.

(** ** The further properties on the small platforms *)

Lemma echo_prints_dots_witness :
  current_pos (Demo.state Demo.encode_bytes Demo.decode_bytes 0 0 5)
    + Z.of_nat (length [1; 200; 7])
  < prompt_size (Demo.state Demo.encode_bytes Demo.decode_bytes 0 0 5)
  /\ @run_gen Demo.bytes Demo.single_turn 1
       (@echo Demo.bytes [1; 200; 7] (@GDone nat 9%nat))
       (Demo.state Demo.encode_bytes Demo.decode_bytes 0 0 5)
     = ([Cerr "."; Cerr "."; Cerr "."],
        Ok tt (@Build_Session Demo.bytes 3 3 5 42 9%nat 1%nat)).
Proof.
  assert (Hlt : current_pos (Demo.state Demo.encode_bytes Demo.decode_bytes 0 0 5)
                  + Z.of_nat (length [1; 200; 7])
                < prompt_size (Demo.state Demo.encode_bytes Demo.decode_bytes 0 0 5))
    by (simpl; lia).
  split; [exact Hlt|].
  rewrite (@echo_prints_dots Demo.bytes Demo.single_turn 1 [1; 200; 7]
             (@GDone nat 9%nat) _ Hlt).
  reflexivity.
Defined.

Lemma turn_counters_witness :
  0 <= abs_pos Probe.start
  /\ match snd (@iteration Probe.eager Probe.multi 0 GEMMA_PT Demo.accept_all
                  (Now (Demo.world 7 0 1)) (Some "hi") Probe.start) with
     | Ok _ s' =>
         0 <= current_pos s'
         /\ 0 <= abs_pos s' <= abs_pos Probe.start + current_pos s'
         /\ (multiturn Probe.multi = true -> is_clear "hi" = false ->
             abs_pos s' = abs_pos Probe.start + current_pos s')
     | Abort _ => True
     end.
Proof.
  assert (Hs : 0 <= abs_pos Probe.start) by (simpl; lia).
  split; [exact Hs|].
  exact (@turn_counters Probe.eager Probe.multi 0 GEMMA_PT Demo.accept_all
           (Now (Demo.world 7 0 1)) "hi" Probe.start Hs).
Defined.

Lemma session_counters_nonneg_witness :
  0 <= abs_pos Probe.start /\ 0 <= current_pos Probe.start
  /\ 0 <= prompt_size Probe.start
  /\ match snd (@repl Probe.eager Probe.multi 0 GEMMA_PT Demo.accept_all
                  (Now (Demo.world 7 0 1)) ["hi"; "%c"; "yo"] Probe.start) with
     | Returned s' | Exceeded s' =>
         0 <= abs_pos s' /\ 0 <= current_pos s' /\ 0 <= prompt_size s'
     | Aborted _ => True
     end.
Proof.
  assert (Ha : 0 <= abs_pos Probe.start) by (simpl; lia).
  assert (Hc : 0 <= current_pos Probe.start) by (simpl; lia).
  assert (Hp : 0 <= prompt_size Probe.start) by (simpl; lia).
  split; [exact Ha|]. split; [exact Hc|]. split; [exact Hp|].
  exact (@session_counters_nonneg Probe.eager Probe.multi 0 GEMMA_PT
           Demo.accept_all (Now (Demo.world 7 0 1)) ["hi"; "%c"; "yo"]
           Probe.start Ha Hc Hp).
Defined.

Lemma engine_never_reseeded_witness :
  (multiturn Probe.multi = true \/ deterministic Probe.multi = false)
  /\ match snd (@repl Demo.bytes Probe.multi 0 GEMMA_PT Demo.accept_all
                  (Now (Demo.world 7 0 1)) ["hi"; "%c"; "yo"]
                  (Demo.state Demo.encode_bytes Demo.decode_bytes 0 0 0)) with
     | Returned s' | Exceeded s' =>
         exists n,
           gen s' = Nat.iter n draw
                      (gen (Demo.state Demo.encode_bytes Demo.decode_bytes 0 0 0))
     | Aborted _ => True
     end.
Proof.
  split; [left; reflexivity|].
  exact (@engine_never_reseeded Demo.bytes Probe.multi 0 GEMMA_PT
           Demo.accept_all (Now (Demo.world 7 0 1)) ["hi"; "%c"; "yo"]
           (Demo.state Demo.encode_bytes Demo.decode_bytes 0 0 0)
           (or_introl eq_refl)).
Defined.

Lemma first_call_has_bos_witness :
  abs_pos (Demo.state Demo.encode_bytes Demo.decode_bytes 0 0 0) = 0
  /\ match calls (fst (@repl Demo.bytes Demo.single_turn 0 GEMMA_PT
                         Demo.accept_all (Now (Demo.world 7 0 1))
                         ["%c"; "hi"; "yo"]
                         (Demo.state Demo.encode_bytes Demo.decode_bytes 0 0 0))) with
     | [] => True
     | (prompt, pos) :: _ =>
         pos = 0 /\
         exists line encoded,
           In line ["%c"; "hi"; "yo"] /\
           @Encode Demo.bytes (template_prompt GEMMA_PT 0 line) = Some encoded /\
           prompt = 2 :: encoded
     end.
Proof.
  split; [reflexivity|].
  exact (@first_call_has_bos Demo.bytes Demo.single_turn 0 GEMMA_PT
           Demo.accept_all (Now (Demo.world 7 0 1)) ["%c"; "hi"; "yo"]
           (Demo.state Demo.encode_bytes Demo.decode_bytes 0 0 0) eq_refl).
Defined.

(** ** The tokenizer calls of a session and its aborts *)

Section Aborts.
Context `{Platform}.
Variable args : InferenceArgs.
Variable verbosity : Z.

Lemma stream_token_requests (token : Z) (s : Session) :
  match snd (stream_token args verbosity token s) with
  | Ok _ _ => reaches_decode token s = true -> succeeds (ToDecode token) = true
  | Abort msg =>
      reaches_decode token s = true /\ succeeds (ToDecode token) = false /\
      fst (stream_token args verbosity token s) = decode_abort /\
      msg = ("Assert " ++ decode_cond)%string
  end.
Proof.
  rewrite stream_token_eq. unfold reaches_decode, succeeds.
  destruct (current_pos s + 1 <? prompt_size s); [simpl; discriminate|].
  destruct (token =? EOS_ID); [simpl; discriminate|].
  destruct (Decode [token]); simpl; auto.
Qed.

Lemma run_gen_requests (p : GenProg KVCache) :
  forall s,
    match snd (run_gen args verbosity p s) with
    | Ok _ _ =>
        forallb succeeds (map ToDecode (decoded args verbosity p s)) = true
    | Abort msg =>
        exists done bad t,
          map ToDecode (decoded args verbosity p s) = done ++ [ToDecode bad]
          /\ forallb succeeds done = true
          /\ succeeds (ToDecode bad) = false
          /\ fst (run_gen args verbosity p s) = t ++ decode_abort
          /\ msg = ("Assert " ++ decode_cond)%string
    end.
Proof.
  induction p as [kv|token k IH|k IH]; intros s.
  - reflexivity.
  - cbn [run_gen decoded]. unfold bind.
    pose proof (stream_token_requests token s) as Hs.
    destruct (stream_token args verbosity token s) as [t1 [b s1|m]];
      cbn [fst snd] in Hs.
    + assert (Hhead : forallb succeeds
                        (map ToDecode
                           (if reaches_decode token s then [token] else []))
                      = true).
      { destruct (reaches_decode token s); [|reflexivity].
        cbn [map forallb]. rewrite (Hs eq_refl). reflexivity. }
      specialize (IH b s1).
      destruct (run_gen args verbosity (k b) s1) as [t2 r]. cbn [fst snd] in *.
      destruct r as [u s2|msg].
      * rewrite map_app, forallb_app, IH, Hhead. reflexivity.
      * destruct IH as (done & bad & t & Hd & Hok & Hbad & Ht & Hm).
        exists (map ToDecode (if reaches_decode token s then [token] else [])
                  ++ done), bad, (t1 ++ t).
        rewrite map_app, Hd, app_assoc, Ht, app_assoc.
        repeat split; auto.
        rewrite forallb_app, Hok, Hhead. reflexivity.
    + destruct Hs as (Hr & Hbad & -> & ->). rewrite Hr.
      exists [], token, []. repeat split; auto.
  - cbn [run_gen decoded]. unfold bind, get, set_gen. cbn [fst snd].
    specialize (IH (fst (mt_next (gen s)))
                   (with_gen (snd (mt_next (gen s))) s)).
    destruct (run_gen _ _ _ _) as [t2 r]. exact IH.
Qed.
End Aborts.

Section SessionAborts.
Context `{Platform}.
Variable args : InferenceArgs.
Variable verbosity : Z.
Variable training : ModelTraining.
Variable accept_token : Z -> bool.
Variable now : nat -> float.

Local Abbreviation iteration' :=
  (iteration args verbosity training accept_token now).
Local Abbreviation repl' := (repl args verbosity training accept_token now).
Local Abbreviation line_requests' :=
  (line_requests args verbosity training accept_token).
Local Abbreviation requests' :=
  (requests args verbosity training accept_token now).

Lemma line_requests_spec (line : string) (s : Session) :
  match snd (iteration' (Some line) s) with
  | Ok _ _ => forallb succeeds (line_requests' line s) = true
  | Abort msg =>
      aborted_by (line_requests' line s) (fst (iteration' (Some line) s)) msg
  end.
Proof.
  rewrite iteration_eq. cbv zeta. unfold line_requests, is_command.
  destruct (is_quit line); [reflexivity|].
  destruct (is_clear line); [reflexivity|].
  cbn [orb]. rewrite run_turn_eq. cbn [abs_pos cache with_current_pos].
  destruct (Encode (template_prompt training (abs_pos s) line))
    as [encoded|] eqn:Ee.
  - cbv zeta. fold (turn_start s encoded).
    pose proof (run_gen_requests args verbosity
                  (GenerateGemma training (cache s) args
                     (with_bos (abs_pos s) encoded) (abs_pos s)
                     accept_token verbosity) (turn_start s encoded)) as Hg.
    destruct (run_gen _ _ _ (turn_start s encoded)) as [tg [u s2|msg]];
      cbn [fst snd] in *.
    + cbn [forallb]. unfold succeeds at 1. rewrite Ee, Hg. reflexivity.
    + destruct Hg as (done & bad & t & Hd & Hok & Hbad & -> & ->).
      exists (ToEncode (template_prompt training (abs_pos s) line) :: done),
             (ToDecode bad),
             (prompt_mark verbosity
                ++ turn_header (with_bos (abs_pos s) encoded) (abs_pos s) ++ t).
      rewrite Hd. repeat split; auto.
      * cbn [forallb]. unfold succeeds at 1. rewrite Ee, Hok. reflexivity.
      * cbn [abort_trace]. rewrite <- !app_assoc. reflexivity.
  - exists [], (ToEncode (template_prompt training (abs_pos s) line)),
           (prompt_mark verbosity).
    repeat split; auto. unfold succeeds. rewrite Ee. reflexivity.
Qed.

Lemma repl_requests (input : list string) :
  forall s,
    match snd (repl' input s) with
    | Aborted msg => aborted_by (requests' input s) (fst (repl' input s)) msg
    | _ => forallb succeeds (requests' input s) = true
    end.
Proof.
  induction input as [|line rest IH]; intros s.
  - rewrite repl_nil. cbn [requests].
    destruct (abs_pos s <? max_tokens args); reflexivity.
  - rewrite repl_cons. cbn [requests].
    destruct (abs_pos s <? max_tokens args); [|reflexivity].
    pose proof (line_requests_spec line s) as Hl.
    destruct (iteration' (Some line) s) as [t [[|] s1|msg]];
      cbn [fst snd] in *.
    + specialize (IH s1).
      destruct (repl' rest s1) as [t2 e]. cbn [fst snd] in *.
      destruct e as [s'|s'|msg];
        try (rewrite forallb_app, Hl, IH; reflexivity).
      destruct IH as (done & bad & t0 & Hd & Hok & Hbad & -> & ->).
      exists (line_requests' line s ++ done), bad, (t ++ t0).
      rewrite Hd, !app_assoc. repeat split; auto.
      rewrite forallb_app, Hl, Hok. reflexivity.
    + rewrite app_nil_r. exact Hl.
    + rewrite app_nil_r. exact Hl.
Qed.

(** C9: a tokenizer call that fails is fatal.  A session ends in an abort
    exactly when one of its tokenizer calls (the [Encode] of a templated
    line, the [Decode] of a streamed token) fails; that call is then the
    last one the session makes, so the failure is neither passed over nor
    tried again; the abort carries the asserted condition and the last
    thing written is the diagnostic on standard error, with the lines that
    follow left unread.  When every tokenizer call of the session succeeds,
    the session does not abort. *)
Theorem tokenizer_failure_is_fatal (input : list string) (s : Session) :
  match snd (repl' input s) with
  | Aborted msg =>
      exists done failed t,
        requests' input s = done ++ [failed]
        /\ forallb succeeds done = true
        /\ succeeds failed = false
        /\ fst (repl' input s) = t ++ abort_trace failed
        /\ msg = abort_message failed
  | Returned _ | Exceeded _ => forallb succeeds (requests' input s) = true
  end
  /\ (forallb succeeds (requests' input s) = true ->
      forall msg, snd (repl' input s) <> Aborted msg)
  /\ (forallb succeeds (requests' input s) = false ->
      exists msg, snd (repl' input s) = Aborted msg)
  /\ (forall token s0,
         reaches_decode token s0 = true -> Decode [token] = None ->
         stream_token args verbosity token s0
         = (decode_abort, Abort ("Assert " ++ decode_cond)%string))
  /\ (forall line rest s0,
         abs_pos s0 < max_tokens args -> is_command line = false ->
         Encode (template_prompt training (abs_pos s0) line) = None ->
         repl' (line :: rest) s0
         = (prompt_mark verbosity ++ encode_abort,
            Aborted ("Assert " ++ encode_cond)%string)).
Proof.
  pose proof (repl_requests input s) as Hmain.
  split; [|split; [|split; [|split]]].
  - destruct (snd (repl' input s)); exact Hmain.
  - intros Hall msg Hab. rewrite Hab in Hmain.
    destruct Hmain as (done & bad & t0 & Hd & _ & Hbad & _).
    rewrite Hd, forallb_app in Hall. cbn [forallb] in Hall.
    rewrite Hbad, andb_false_r in Hall. discriminate.
  - intros Hsome. destruct (snd (repl' input s)) as [s'|s'|msg];
      [congruence|congruence|exists msg; reflexivity].
  - intros token s0 Hr Hd. rewrite stream_token_eq, Hd.
    unfold reaches_decode in Hr. apply andb_prop in Hr as [H1 H2].
    apply negb_true_iff in H1, H2. rewrite H1, H2. reflexivity.
  - intros line rest s0 Hs Hcmd He. rewrite repl_cons, iteration_eq.
    apply Z.ltb_lt in Hs. rewrite Hs. cbv zeta.
    unfold is_command in Hcmd. apply orb_false_elim in Hcmd as [-> ->].
    rewrite run_turn_eq. cbn [abs_pos with_current_pos]. rewrite He.
    reflexivity.
Qed.

Lemma repl_calls_lines (input : list string) :
  forall s,
    Forall (fun c =>
              exists line encoded,
                In line input /\
                Encode (template_prompt training (snd c) line) = Some encoded /\
                fst c = if snd c =? 0 then 2 :: encoded else encoded)
           (calls (fst (repl' input s))).
Proof.
  induction input as [|line rest IH]; intros s.
  - rewrite repl_nil. destruct (_ <? _); simpl;
      [rewrite prompt_mark_calls|]; constructor.
  - rewrite repl_cons. destruct (abs_pos s <? max_tokens args); [|constructor].
    pose proof (iteration_call_facts args verbosity training accept_token now
                  line s) as Hc.
    assert (Hhere : Forall (fun c =>
              exists l encoded,
                In l (line :: rest) /\
                Encode (template_prompt training (snd c) l) = Some encoded /\
                fst c = if snd c =? 0 then 2 :: encoded else encoded)
              (calls (fst (iteration' (Some line) s)))).
    { eapply Forall_impl; [|exact Hc].
      intros c (Hpos & encoded & He & Hf). exists line, encoded.
      rewrite Hpos. split; [left; reflexivity|]. split; assumption. }
    destruct (iteration' (Some line) s) as [t [[|] s1|msg]]; cbn [fst] in *;
      try exact Hhere.
    specialize (IH s1). destruct (repl' rest s1) as [t' e]. cbn [fst] in *.
    rewrite calls_app. apply Forall_app. split; [exact Hhere|].
    eapply Forall_impl; [|exact IH].
    intros c (l & encoded & Hin & He & Hf). exists l, encoded.
    split; [right; exact Hin|]. split; assumption.
Qed.

(** C5: on every turn the text handed to the tokenizer is the line wrapped
    as [wrapped_text] says: under the instruction-tuned variant
    "<start_of_turn>user\n" + line + "<end_of_turn>\n<start_of_turn>model\n",
    with "<end_of_turn>\n" in front exactly when the turn starts at a
    position above 0; under the pretrained variant the line as it is.  The
    generator receives the encoding of that text (behind token 2 at position
    0), and the turn aborts when that text does not encode. *)
Theorem turns_encode_wrapped_text :
  (forall line s encoded,
      is_command line = false ->
      Encode (wrapped_text training (abs_pos s) line) = Some encoded ->
      calls (fst (iteration' (Some line) s))
      = [(if abs_pos s =? 0 then 2 :: encoded else encoded, abs_pos s)])
  /\ (forall line rest s,
         abs_pos s < max_tokens args -> is_command line = false ->
         Encode (wrapped_text training (abs_pos s) line) = None ->
         repl' (line :: rest) s
         = (prompt_mark verbosity ++ encode_abort,
            Aborted ("Assert " ++ encode_cond)%string))
  /\ (forall input s,
         Forall (fun c =>
                   exists line encoded,
                     In line input /\
                     Encode (wrapped_text training (snd c) line)
                     = Some encoded /\
                     fst c = if snd c =? 0 then 2 :: encoded else encoded)
                (calls (fst (repl' input s)))).
Proof.
  split; [|split].
  - intros line s encoded Hcmd He.
    rewrite iteration_calls. unfold is_command in Hcmd. rewrite Hcmd.
    rewrite template_prompt_wrapped, He. reflexivity.
  - intros line rest s Hs Hcmd He. rewrite repl_cons, iteration_eq.
    apply Z.ltb_lt in Hs. rewrite Hs. cbv zeta.
    unfold is_command in Hcmd. apply orb_false_elim in Hcmd as [-> ->].
    rewrite run_turn_eq. cbn [abs_pos with_current_pos].
    rewrite template_prompt_wrapped, He. reflexivity.
  - intros input s. eapply Forall_impl; [|apply repl_calls_lines].
    intros c (line & encoded & Hin & He & Hf). exists line, encoded.
    rewrite <- template_prompt_wrapped. auto.
Qed.

Lemma run_gen_quiet (p : GenProg KVCache) :
  forall s t u s',
    streamed args verbosity p s = [] ->
    run_gen args verbosity p s = (t, Ok u s') ->
    abs_pos s' = abs_pos s /\ current_pos s' = current_pos s /\
    exists n, gen s' = Nat.iter n draw (gen s).
Proof.
  induction p as [kv|token k IH|k IH]; intros s t u s'; cbn [streamed run_gen].
  - intros _ [= <- <- <-]. repeat split. exists 0%nat. reflexivity.
  - discriminate.
  - unfold bind, get, set_gen. cbn [fst snd]. intros Hq.
    destruct (run_gen _ _ _ _) as [t2 r] eqn:E. intros [= <- ->].
    destruct (IH _ _ _ _ _ Hq E) as (Ha & Hc & n & Hn).
    cbn [abs_pos current_pos gen with_gen] in *. repeat split; auto.
    exists (S n). rewrite Nat.iter_succ_r. exact Hn.
Qed.

Lemma run_gen_last_eos (p : GenProg KVCache) :
  forall toks s t u s',
    streamed args verbosity p s = toks ++ [EOS_ID] ->
    prompt_size s <= current_pos s + Z.of_nat (length toks) + 1 ->
    run_gen args verbosity p s = (t, Ok u s') ->
    abs_pos s' = (if multiturn args
                  then abs_pos s + Z.of_nat (length toks) + 1 else 0)
    /\ current_pos s' = current_pos s + Z.of_nat (length toks) + 1
    /\ exists n, gen s' = Nat.iter n draw (engine_after_eos args (gen s)).
Proof.
  induction p as [kv|token k IH|k IH]; intros toks s t u s';
    cbn [streamed run_gen].
  - intros Hst. destruct toks; discriminate.
  - unfold bind.
    destruct (stream_token args verbosity token s) as [t1 [b s1|msg]] eqn:E;
      [|discriminate].
    destruct (run_gen args verbosity (k b) s1) as [t2 r] eqn:E2.
    intros Hst Hp [= <- ->].
    destruct toks as [|t0 toks].
    + cbn [app] in Hst. injection Hst as -> Hq.
      cbn [length] in Hp.
      destruct (stream_token_eos args verbosity EOS_ID s eq_refl)
        as (s1' & E' & Ha & Hg & Hc & _); [lia|].
      rewrite E in E'. injection E' as _ _ Hs1. subst s1'.
      destruct (run_gen_quiet _ _ _ _ _ Hq E2) as (Ha2 & Hc2 & n & Hn).
      cbn [length]. rewrite Ha2, Hc2, Ha, Hc.
      split; [destruct (multiturn args); lia|]. split; [lia|].
      exists n. rewrite Hn, Hg. reflexivity.
    + cbn [app] in Hst. injection Hst as -> Hst.
      pose proof (stream_token_ok _ _ _ _ _ _ _ E) as (_ & _ & (Hps & _) & _).
      apply stream_token_counters in E as (Hc & Ha & Hg).
      cbn [length] in Hp. rewrite Nat2Z.inj_succ in Hp.
      destruct (IH b toks s1 t2 u s' Hst) as (Ha' & Hc' & n & Hn);
        [lia|exact E2|].
      cbn [length]. rewrite Nat2Z.inj_succ.
      split; [|split; [lia|]].
      * rewrite Ha'. destruct (multiturn args) eqn:Hm; [|reflexivity].
        destruct Ha as [Ha|[_ Hf]]; [lia|discriminate].
      * exists n. rewrite Hn. unfold engine_after_eos.
        destruct (negb (multiturn args) && deterministic args) eqn:Hcfg;
          [reflexivity|].
        destruct Hg as [->|(_ & Hm & Hd)]; [reflexivity|].
        rewrite Hm, Hd in Hcfg. discriminate.
  - unfold bind, get, set_gen. cbn [fst snd]. intros Hst Hp.
    destruct (run_gen _ _ _ _) as [t2 r] eqn:E. intros [= <- ->].
    destruct (IH _ toks _ _ _ _ Hst Hp E) as (Ha & Hc & n & Hn).
    cbn [abs_pos current_pos gen with_gen] in *.
    split; [exact Ha|]. split; [exact Hc|].
    unfold engine_after_eos in *.
    destruct (negb (multiturn args) && deterministic args);
      [exists n; exact Hn|].
    exists (S n). rewrite Nat.iter_succ_r. exact Hn.
Qed.

(** C4 (as amended): an end-of-sequence token outside the prefill phase
    ([prompt_size <= current_pos] after the increment) sets [abs_pos] to 0
    in a session that is not multiturn and, when deterministic, seeds the
    engine with 42 again; in a multiturn session the engine stays and
    [abs_pos] only carries the increment every callback makes.  While the
    prompt is echoed, any token, the end-of-sequence id included, is answered
    with the progress dot and resets nothing.  When the end-of-sequence token
    is the last token the generator streams in a turn, and is outside the
    prefill phase, the loop awaits the next line with [abs_pos] at 0 in a
    session that is not multiturn (with the turn's token count added in a
    multiturn one) and the engine as the token left it, moved by draws
    only. *)
Theorem eos_resets_position :
  (forall token s,
      token = EOS_ID ->
      prompt_size s <= current_pos s + 1 ->
      exists s',
        stream_token args verbosity token s
        = (eos_marker verbosity, Ok true s')
        /\ abs_pos s' = (if multiturn args then abs_pos s + 1 else 0)
        /\ gen s' = (if negb (multiturn args) && deterministic args
                     then mt_seed 42 else gen s)
        /\ current_pos s' = current_pos s + 1
        /\ prompt_size s' = prompt_size s)
  /\ (forall token s,
         current_pos s + 1 < prompt_size s ->
         stream_token args verbosity token s
         = ([Cerr "."], Ok true (bump s)))
  /\ (forall line rest s encoded toks,
         abs_pos s < max_tokens args ->
         is_command line = false ->
         Encode (template_prompt training (abs_pos s) line) = Some encoded ->
         streamed args verbosity
           (GenerateGemma training (cache s) args
              (with_bos (abs_pos s) encoded) (abs_pos s)
              accept_token verbosity)
           (turn_start s encoded)
         = toks ++ [EOS_ID] ->
         Z.of_nat (length (with_bos (abs_pos s) encoded))
         <= Z.of_nat (length toks) + 1 ->
         match snd (iteration' (Some line) s) with
         | Ok _ s' =>
             abs_pos s' = (if multiturn args
                           then abs_pos s + Z.of_nat (length toks) + 1
                           else 0)
             /\ (exists n,
                    gen s' = Nat.iter n draw
                               (if negb (multiturn args) && deterministic args
                                then mt_seed 42 else gen s))
             /\ repl' (line :: rest) s
                = (fst (iteration' (Some line) s) ++ fst (repl' rest s'),
                   snd (repl' rest s'))
         | Abort _ => True
         end).
Proof.
  split; [|split].
  - intros token s Ht Hp. exact (stream_token_eos args verbosity token s Ht Hp).
  - intros token s Hp. rewrite stream_token_eq.
    apply Z.ltb_lt in Hp. rewrite Hp. reflexivity.
  - intros line rest s encoded toks Hs Hcmd He Hst Hlen.
    pose proof (repl_cons args verbosity training accept_token now line rest s)
      as Hrepl.
    apply Z.ltb_lt in Hs. rewrite Hs in Hrepl.
    unfold is_command in Hcmd. apply orb_false_elim in Hcmd as [Hq Hc].
    destruct (iteration_cases args verbosity training accept_token now line s)
      as (t' & _ & [(Hq' & _)|[(_ & Hc' & _)|[(_ & He' & _)|(_ & enc & tg & r & He' & Eg & Hr)]]]);
      try congruence.
    rewrite He in He'. injection He' as <-.
    destruct (iteration' (Some line) s) as [t res]. cbn [fst snd] in *.
    subst res. destruct r as [u s2|msg]; [|exact I].
    destruct (run_gen_last_eos _ toks (turn_start s encoded) tg u s2 Hst)
      as (Ha & _ & n & Hn); [cbn; lia|exact Eg|].
    cbn [abs_pos gen tick].
    split; [exact Ha|]. split; [exists n; exact Hn|].
    rewrite Hrepl. destruct (repl' rest (tick s2)). reflexivity.
Qed.

(** X9: in a multiturn session without clear commands, whose lines encode
    to at least one token, with a generator that streams at least one token
    when it is called with a prompt that is not empty from a position below
    [max_tokens], the start positions handed to the generator strictly
    increase from the position the loop starts at.  Every call after the
    first is at a position above 0 and receives the encoded line with
    nothing in front: only the first prompt can carry token 2. *)
Theorem positions_increase (input : list string) (s : Session) :
  multiturn args = true ->
  (forall line, In line input -> is_clear line = false) ->
  (forall kv prompt pos,
      prompt <> [] -> pos < max_tokens args ->
      streams_first
        (GenerateGemma training kv args prompt pos accept_token verbosity)) ->
  (forall line pos,
      In line input ->
      Encode (template_prompt training pos line) <> Some []) ->
  0 <= abs_pos s ->
  StronglySorted Z.lt (map snd (calls (fst (repl' input s))))
  /\ Forall (fun c => abs_pos s <= snd c) (calls (fst (repl' input s)))
  /\ Forall (fun c =>
               0 < snd c /\
               exists line encoded,
                 In line input /\
                 Encode (template_prompt training (snd c) line)
                 = Some encoded /\
                 fst c = encoded)
            (tl (calls (fst (repl' input s)))).
Proof.
  intros Hmulti Hclear Hstream Hfull.
  assert (Hmain : forall input,
             (forall line, In line input -> is_clear line = false) ->
             (forall line pos,
                 In line input ->
                 Encode (template_prompt training pos line) <> Some []) ->
             forall s, 0 <= abs_pos s ->
             StronglySorted Z.lt (map snd (calls (fst (repl' input s))))
             /\ Forall (fun c => abs_pos s <= snd c)
                       (calls (fst (repl' input s)))).
  { clear input s Hclear Hfull.
    induction input as [|line rest IH]; intros Hclear Hfull s Hs.
    - rewrite repl_nil. destruct (_ <? _); simpl;
        [rewrite prompt_mark_calls|]; split; constructor.
    - rewrite repl_cons.
      destruct (abs_pos s <? max_tokens args) eqn:Eguard;
        [|split; constructor].
      apply Z.ltb_lt in Eguard.
      assert (Hone : forall t,
                 calls t = [] \/
                 (exists prompt, calls t = [(prompt, abs_pos s)]) ->
                 StronglySorted Z.lt (map snd (calls t))
                 /\ Forall (fun c => abs_pos s <= snd c) (calls t)).
      { intros t [-> | [prompt ->]]; simpl; split; repeat constructor.
        simpl. lia. }
      pose proof (iteration_call_position args verbosity training accept_token
                    now line s) as Hpos.
      destruct (iteration_cases args verbosity training accept_token now
                  line s)
        as (t' & _ & [(_ & Hr)|[(_ & Hc & _)|[(_ & _ & Hr)|(_ & encoded & tg & r & He & Eg & Hr)]]]).
      + destruct (iteration' (Some line) s) as [t res]. simpl in Hr, Hpos.
        subst res. exact (Hone t Hpos).
      + rewrite (Hclear line (or_introl eq_refl)) in Hc. discriminate.
      + destruct (iteration' (Some line) s) as [t res]. simpl in Hr, Hpos.
        subst res. exact (Hone t Hpos).
      + destruct (iteration' (Some line) s) as [t res]. simpl in Hr, Hpos.
        subst res.
        destruct r as [u s2|msg]; [|exact (Hone t Hpos)].
        assert (Hprompt : with_bos (abs_pos s) encoded <> []).
        { unfold with_bos. destruct (abs_pos s =? 0); [discriminate|].
          intros ->. exact (Hfull line (abs_pos s) (or_introl eq_refl) He). }
        pose proof Eg as Eg'.
        apply run_gen_counters in Eg' as (_ & _ & Hm & Hfirst); [|exact Hs].
        specialize (Hm Hmulti).
        specialize (Hfirst (Hstream _ _ _ Hprompt Eguard)).
        simpl in Hm, Hfirst.
        assert (Hs2 : abs_pos s < abs_pos (tick s2)) by (simpl; lia).
        destruct (IH (fun l Hl => Hclear l (or_intror Hl))
                     (fun l pos Hl => Hfull l pos (or_intror Hl)) (tick s2))
          as (Hsorted & Hlow); [lia|].
        destruct (repl' rest (tick s2)) as [t2 e]. simpl fst in *.
        assert (Hlow' : Forall (fun c => abs_pos s < snd c) (calls t2))
          by (eapply Forall_impl; [|exact Hlow]; intros c Hc; simpl in *; lia).
        rewrite calls_app.
        destruct Hpos as [-> | [prompt ->]]; simpl.
        * split; [exact Hsorted|].
          eapply Forall_impl; [|exact Hlow']. intros c Hc. simpl in *. lia.
        * split.
          -- constructor; [exact Hsorted|]. rewrite Forall_map. exact Hlow'.
          -- constructor; [simpl; lia|].
             eapply Forall_impl; [|exact Hlow']. intros c Hc. simpl in *. lia. }
  intros Hs. destruct (Hmain input Hclear Hfull s Hs) as (Hsorted & Hlow).
  split; [exact Hsorted|]. split; [exact Hlow|].
  pose proof (repl_calls_lines input s) as Hlines.
  destruct (calls (fst (repl' input s))) as [|c l]; [constructor|].
  simpl in *. inversion Hsorted as [|? ? _ Hall]; subst.
  inversion Hlow as [|? ? Hc _]; subst.
  inversion Hlines as [|? ? _ Hl]; subst.
  rewrite Forall_map in Hall. rewrite Forall_forall in *.
  intros c' Hin. specialize (Hall c' Hin). specialize (Hl c' Hin).
  simpl in *. split; [lia|].
  destruct Hl as (line & encoded & Hline & He & Hf).
  exists line, encoded. split; [exact Hline|]. split; [exact He|].
  rewrite Hf. destruct (snd c' =? 0) eqn:E; [|reflexivity].
  apply Z.eqb_eq in E. lia.
Qed.

(** A generator call writes to standard error only what its callbacks
    write, and ends with the diagnostic when it aborts. *)
Lemma run_gen_trace_inv (P : Event -> Prop) (I : Session -> Prop) :
  (forall g s, I s -> I (with_gen g s)) ->
  (forall token s t b s1,
      I s -> stream_token args verbosity token s = (t, Ok b s1) ->
      Forall P t /\ I s1) ->
  forall p s,
    I s ->
    exists t,
      Forall P t /\
      fst (run_gen args verbosity p s)
      = t ++ abort_tail (snd (run_gen args verbosity p s)).
Proof.
  intros Hgen Hstep.
  induction p as [kv|token k IH|k IH]; intros s Hs; cbn [run_gen].
  - exists []. split; [constructor|reflexivity].
  - unfold bind.
    destruct (stream_token args verbosity token s) as [t1 [b s1|msg]] eqn:E.
    + destruct (Hstep _ _ _ _ _ Hs E) as (Ht1 & Hs1).
      destruct (IH b s1 Hs1) as (t & Ht & Heq).
      destruct (run_gen args verbosity (k b) s1) as [t2 r].
      cbn [fst snd] in *. subst t2. exists (t1 ++ t).
      split; [apply Forall_app; split; assumption|apply app_assoc].
    + apply stream_token_abort in E as (-> & _).
      exists []. split; [constructor|reflexivity].
  - unfold bind, get, set_gen. cbn [fst snd].
    destruct (IH (fst (mt_next (gen s)))
                 (with_gen (snd (mt_next (gen s))) s) (Hgen _ _ Hs))
      as (t & Ht & Heq).
    destruct (run_gen _ _ _ _) as [t2 r]. cbn [fst snd] in *.
    exists t. auto.
Qed.

Lemma stream_token_stderr (token : Z) (s : Session) t b s1 :
  stream_token args verbosity token s = (t, Ok b s1) ->
  Forall driver_stderr t.
Proof.
  rewrite stream_token_eq.
  destruct (_ <? _); [intros [= <- _ _]; repeat constructor; simpl; auto|].
  destruct (_ =? _).
  - intros [= <- _ _]. unfold eos_marker.
    destruct (_ <=? _); repeat constructor.
  - destruct (Decode _); [|discriminate]. intros [= <- _ _].
    unfold text_events.
    destruct (_ =? _); [destruct (_ <=? _)|]; repeat constructor.
Qed.

Lemma stream_token_stdout (token : Z) (s : Session) t b s1 :
  prompt_size s <= current_pos s + 1 ->
  stream_token args verbosity token s = (t, Ok b s1) ->
  Forall no_stderr t /\ prompt_size s1 <= current_pos s1 + 1.
Proof.
  intros Hp E.
  pose proof (stream_token_ok _ _ _ _ _ _ _ E) as (_ & _ & (Hps & _) & Hc).
  split; [|lia]. revert E. rewrite stream_token_eq.
  destruct (current_pos s + 1 <? prompt_size s) eqn:El;
    [apply Z.ltb_lt in El; lia|].
  destruct (_ =? _).
  - intros [= <- _ _]. unfold eos_marker.
    destruct (_ <=? _); repeat constructor.
  - destruct (Decode _); [|discriminate]. intros [= <- _ _].
    unfold text_events.
    destruct (_ =? _); [destruct (_ <=? _)|]; repeat constructor.
Qed.

(** X13: within one generator call the progress dots come first: what is
    written is a run of dots on standard error, at most
    [prompt_size - 1 - current_pos] of them (none when that is negative),
    then writes to standard output only, and last, when a token fails to
    decode, the diagnostic of the assertion on standard error. *)
Theorem dots_come_first (p : GenProg KVCache) (s : Session) :
  exists n t,
    fst (run_gen args verbosity p s)
    = repeat (Cerr ".") n ++ t
        ++ abort_tail (snd (run_gen args verbosity p s))
    /\ Forall no_stderr t
    /\ Z.of_nat n <= Z.max 0 (prompt_size s - 1 - current_pos s).
Proof.
  assert (Hpast : forall p s,
             prompt_size s <= current_pos s + 1 ->
             exists t,
               Forall no_stderr t /\
               fst (run_gen args verbosity p s)
               = t ++ abort_tail (snd (run_gen args verbosity p s))).
  { intros p0 s0.
    apply (run_gen_trace_inv no_stderr
             (fun s1 => prompt_size s1 <= current_pos s1 + 1)).
    - intros g s1 Hs1. exact Hs1.
    - intros token s1 t b s2 Hs1 E. exact (stream_token_stdout _ _ _ _ _ Hs1 E). }
  revert s. induction p as [kv|token k IH|k IH]; intros s.
  - exists 0%nat, []. simpl. repeat split; [constructor|lia].
  - destruct (current_pos s + 1 <? prompt_size s) eqn:E.
    + cbn [run_gen]. unfold bind. rewrite stream_token_eq, E.
      destruct (IH true (bump s)) as (n & t & Ht & Hno & Hn).
      destruct (run_gen _ _ _ (bump s)) as [t2 r]. cbn [fst snd] in *.
      subst t2. exists (S n), t. split; [reflexivity|]. split; [exact Hno|].
      apply Z.ltb_lt in E. simpl in Hn. lia.
    + apply Z.ltb_ge in E.
      destruct (Hpast (GStream token k) s) as (t & Hno & Ht); [lia|].
      exists 0%nat, t. split; [exact Ht|]. split; [exact Hno|lia].
  - cbn [run_gen]. unfold bind, get, set_gen. cbn [fst snd].
    destruct (IH (fst (mt_next (gen s))) (with_gen (snd (mt_next (gen s))) s))
      as (n & t & Ht & Hno & Hn).
    destruct (run_gen _ _ _ _) as [t2 r]. cbn [fst snd] in *. subst t2.
    exists n, t. auto.
Qed.

Lemma iteration_stderr (line : string) (s : Session) :
  exists t,
    Forall driver_stderr t /\
    match snd (iteration' (Some line) s) with
    | Ok _ _ => fst (iteration' (Some line) s) = t
    | Abort _ =>
        fst (iteration' (Some line) s) = t ++ decode_abort \/
        fst (iteration' (Some line) s) = t ++ encode_abort
    end.
Proof.
  assert (Hmark : Forall driver_stderr (prompt_mark verbosity))
    by (unfold prompt_mark; destruct (_ <=? _); repeat constructor).
  rewrite iteration_eq. cbv zeta.
  destruct (is_quit line);
    [exists (prompt_mark verbosity); split; [exact Hmark|reflexivity]|].
  destruct (is_clear line);
    [exists (prompt_mark verbosity); split; [exact Hmark|reflexivity]|].
  rewrite run_turn_eq.
  destruct (Encode _) as [encoded|];
    [|exists (prompt_mark verbosity); split; [exact Hmark|right; reflexivity]].
  cbv zeta.
  match goal with |- context [turn_header ?pr ?ps] =>
    assert (Hhead : Forall driver_stderr (turn_header pr ps))
  end.
  { unfold turn_header. constructor; [right; left; reflexivity|].
    constructor; [right; right; reflexivity|]. repeat constructor. }
  assert (Hfoot : forall s2 a b,
             Forall driver_stderr (turn_footer verbosity s2 a b)).
  { intros s2 a b. unfold turn_footer.
    destruct (_ <=? _); repeat (constructor; [exact I|]); constructor. }
  match goal with |- context [run_gen ?a ?v ?p ?s1] =>
    destruct (run_gen_trace_inv driver_stderr (fun _ => True)
                (fun _ _ _ => I)
                (fun token s0 t b s2 _ E =>
                   conj (stream_token_stderr token s0 t b s2 E) I)
                p s1 I) as (tg & Hg & Heq);
    destruct (run_gen a v p s1) as [tg' [u s2|msg]] end;
    cbn [fst snd abort_tail] in *; subst tg'.
  - eexists. split; [|reflexivity]. rewrite app_nil_r.
    apply Forall_app. split; [exact Hmark|].
    apply Forall_app. split; [exact Hhead|].
    apply Forall_app. split; [exact Hg|apply Hfoot].
  - exists (prompt_mark verbosity
              ++ turn_header (with_bos (abs_pos (with_current_pos 0 s)) encoded)
                   (abs_pos (with_current_pos 0 s)) ++ tg).
    split; [repeat (apply Forall_app; split); auto|].
    left. rewrite <- !app_assoc. reflexivity.
Qed.

(** X12: to standard error a session writes progress dots and, before each
    generator call, a line break and the notice "[ Reading prompt ] ";
    decoded text, statistics, the prompt sign and the budget message never
    go there.  The one other thing it can receive is the diagnostic of a
    failed assertion, as the last thing a session that aborts writes. *)
Theorem stderr_carries_progress_only (input : list string) (s : Session) :
  exists t,
    Forall driver_stderr t /\
    match snd (repl' input s) with
    | Returned _ | Exceeded _ => fst (repl' input s) = t
    | Aborted _ =>
        fst (repl' input s) = t ++ decode_abort \/
        fst (repl' input s) = t ++ encode_abort
    end.
Proof.
  assert (Hmark : Forall driver_stderr (prompt_mark verbosity))
    by (unfold prompt_mark; destruct (_ <=? _); repeat constructor).
  revert s. induction input as [|line rest IH]; intros s.
  - rewrite repl_nil. destruct (_ <? _); eexists; cbn [fst snd];
      (split; [|reflexivity]); [exact Hmark|repeat constructor].
  - rewrite repl_cons.
    destruct (_ <? _);
      [|eexists; cbn [fst snd]; split; [|reflexivity]; repeat constructor].
    destruct (iteration_stderr line s) as (t & Ht & Hit).
    destruct (iteration' (Some line) s) as [t1 [[|] s1|msg]];
      cbn [fst snd] in *.
    + subst t1. destruct (IH s1) as (t2 & Ht2 & Hrest).
      destruct (repl' rest s1) as [t3 e]. cbn [fst snd] in *.
      exists (t ++ t2). split; [apply Forall_app; split; assumption|].
      destruct e; try (subst t3; reflexivity).
      destruct Hrest as [-> | ->]; [left|right]; apply app_assoc.
    + subst t1. exists t. auto.
    + exists t. auto.
Qed.
End SessionAborts.

(** ** Session-level properties on the small platforms *)

(** C4, the claim as stated fails twice.  An end-of-sequence token met while
    the prompt is echoed is answered with the progress dot, and [abs_pos]
    goes from 4 to 5 in a session that is not multiturn.  And when the
    generator streams one more token after the end-of-sequence token, the
    loop awaits the next line with [abs_pos] at 1: the second prompt is
    handed over at position 1, without token 2. *)
Lemma eos_does_not_always_reset :
  multiturn Demo.single_turn = false
  /\ @stream_token Demo.bytes Demo.single_turn 1 (@EOS_ID Demo.bytes)
       (Demo.state Demo.encode_bytes Demo.decode_bytes 4 0 3)
     = ([Cerr "."],
        Ok true (Demo.state Demo.encode_bytes Demo.decode_bytes 5 1 3))
  /\ abs_pos (Demo.state Demo.encode_bytes Demo.decode_bytes 5 1 3) <> 0
  /\ final_abs_pos
       (snd (@repl Probe.chatty Demo.single_turn 0 GEMMA_PT Demo.accept_all
               (Now (Demo.world 7 0 1)) ["hi"] Probe.chatty_start)) = Some 1
  /\ calls
       (fst (@repl Probe.chatty Demo.single_turn 0 GEMMA_PT Demo.accept_all
               (Now (Demo.world 7 0 1)) ["hi"; "yo"] Probe.chatty_start))
     = [([2; 104; 105], 0); ([121; 111], 1)].
Proof.
  split; [reflexivity|]. split; [reflexivity|]. split; [discriminate|].
  split; vm_compute; reflexivity.
Qed.

Lemma eos_resets_position_witness :
  abs_pos (Demo.state Demo.encode_bytes Demo.decode_bytes 0 0 0)
  < max_tokens Demo.single_turn
  /\ is_command "hi" = false
  /\ @Encode Demo.bytes (template_prompt GEMMA_PT 0 "hi") = Some [104; 105]
  /\ @streamed Demo.bytes Demo.single_turn 0
       (@GenerateGemma Demo.bytes GEMMA_PT 0%nat Demo.single_turn
          [2; 104; 105] 0 Demo.accept_all 0)
       (turn_start (Demo.state Demo.encode_bytes Demo.decode_bytes 0 0 0)
                   [104; 105])
     = [2; 104; 105; 120; 100; 104; 104] ++ [1]
  /\ Z.of_nat (length [2; 104; 105])
     <= Z.of_nat (length [2; 104; 105; 120; 100; 104; 104]) + 1
  /\ match snd (@iteration Demo.bytes Demo.single_turn 0 GEMMA_PT
                  Demo.accept_all (Now (Demo.world 7 0 1)) (Some "hi")
                  (Demo.state Demo.encode_bytes Demo.decode_bytes 0 0 0)) with
     | Ok _ s' => abs_pos s' = 0
     | Abort _ => True
     end.
Proof.
  assert (H1 : abs_pos (Demo.state Demo.encode_bytes Demo.decode_bytes 0 0 0)
               < max_tokens Demo.single_turn) by (simpl; lia).
  assert (H4 : @streamed Demo.bytes Demo.single_turn 0
                 (@GenerateGemma Demo.bytes GEMMA_PT 0%nat Demo.single_turn
                    [2; 104; 105] 0 Demo.accept_all 0)
                 (turn_start
                    (Demo.state Demo.encode_bytes Demo.decode_bytes 0 0 0)
                    [104; 105])
               = [2; 104; 105; 120; 100; 104; 104] ++ [1])
    by (vm_compute; reflexivity).
  assert (H5 : Z.of_nat (length [2; 104; 105])
               <= Z.of_nat (length [2; 104; 105; 120; 100; 104; 104]) + 1)
    by (simpl; lia).
  split; [exact H1|]. split; [reflexivity|]. split; [reflexivity|].
  split; [exact H4|]. split; [exact H5|].
  pose proof (proj2 (proj2 (@eos_resets_position Demo.bytes Demo.single_turn 0
                              GEMMA_PT Demo.accept_all (Now (Demo.world 7 0 1))))
                "hi" []
                (Demo.state Demo.encode_bytes Demo.decode_bytes 0 0 0)
                [104; 105] [2; 104; 105; 120; 100; 104; 104]
                H1 eq_refl eq_refl H4 H5) as Hturn.
  destruct (snd (@iteration Demo.bytes Demo.single_turn 0 GEMMA_PT
                   Demo.accept_all (Now (Demo.world 7 0 1)) (Some "hi")
                   (Demo.state Demo.encode_bytes Demo.decode_bytes 0 0 0)));
    [exact (proj1 Hturn)|exact I].
Defined.

Lemma turns_encode_wrapped_text_witness :
  is_command "hi" = false
  /\ @Encode Demo.bytes
       (wrapped_text GEMMA_IT
          (abs_pos (Demo.state Demo.encode_bytes Demo.decode_bytes 3 0 0)) "hi")
     = Some Probe.wrapped_hi
  /\ calls (fst (@iteration Demo.bytes Demo.single_turn 0 GEMMA_IT
                   Demo.accept_all (Now (Demo.world 7 0 1)) (Some "hi")
                   (Demo.state Demo.encode_bytes Demo.decode_bytes 3 0 0)))
     = [(Probe.wrapped_hi, 3)].
Proof.
  assert (He : @Encode Demo.bytes
                 (wrapped_text GEMMA_IT
                    (abs_pos (Demo.state Demo.encode_bytes Demo.decode_bytes
                                3 0 0)) "hi")
               = Some Probe.wrapped_hi) by (vm_compute; reflexivity).
  split; [reflexivity|]. split; [exact He|].
  exact (proj1 (@turns_encode_wrapped_text Demo.bytes Demo.single_turn 0
                  GEMMA_IT Demo.accept_all (Now (Demo.world 7 0 1)))
               "hi" (Demo.state Demo.encode_bytes Demo.decode_bytes 3 0 0)
               Probe.wrapped_hi eq_refl He).
Defined.

Lemma tokenizer_failure_is_fatal_witness :
  (forallb (@succeeds Demo.bytes)
     (@requests Demo.bytes Demo.single_turn 1 GEMMA_PT Demo.accept_all
        (Now (Demo.world 7 0 1)) ["hi"; "yo"]
        (Demo.state Demo.encode_bytes Demo.decode_bytes 0 0 0)) = true
   /\ forall msg,
        snd (@repl Demo.bytes Demo.single_turn 1 GEMMA_PT Demo.accept_all
               (Now (Demo.world 7 0 1)) ["hi"; "yo"]
               (Demo.state Demo.encode_bytes Demo.decode_bytes 0 0 0))
        <> Aborted msg)
  /\ (forallb (@succeeds Demo.ascii_only)
        (@requests Demo.ascii_only Demo.single_turn 1 GEMMA_PT Demo.accept_all
           (Now (Demo.world 7 0 1)) ["hi"; Probe.latin_line; "yo"]
           (Demo.state Demo.encode_ascii Demo.decode_ascii 0 0 0)) = false
      /\ exists msg,
           snd (@repl Demo.ascii_only Demo.single_turn 1 GEMMA_PT
                  Demo.accept_all (Now (Demo.world 7 0 1))
                  ["hi"; Probe.latin_line; "yo"]
                  (Demo.state Demo.encode_ascii Demo.decode_ascii 0 0 0))
           = Aborted msg).
Proof.
  assert (Hall : forallb (@succeeds Demo.bytes)
            (@requests Demo.bytes Demo.single_turn 1 GEMMA_PT Demo.accept_all
               (Now (Demo.world 7 0 1)) ["hi"; "yo"]
               (Demo.state Demo.encode_bytes Demo.decode_bytes 0 0 0)) = true)
    by (vm_compute; reflexivity).
  assert (Hsome : forallb (@succeeds Demo.ascii_only)
            (@requests Demo.ascii_only Demo.single_turn 1 GEMMA_PT
               Demo.accept_all (Now (Demo.world 7 0 1))
               ["hi"; Probe.latin_line; "yo"]
               (Demo.state Demo.encode_ascii Demo.decode_ascii 0 0 0)) = false)
    by (vm_compute; reflexivity).
  split; (split; [assumption|]).
  - exact (proj1 (proj2 (@tokenizer_failure_is_fatal Demo.bytes
                           Demo.single_turn 1 GEMMA_PT Demo.accept_all
                           (Now (Demo.world 7 0 1)) ["hi"; "yo"] _)) Hall).
  - exact (proj1 (proj2 (proj2 (@tokenizer_failure_is_fatal Demo.ascii_only
                                  Demo.single_turn 1 GEMMA_PT Demo.accept_all
                                  (Now (Demo.world 7 0 1))
                                  ["hi"; Probe.latin_line; "yo"] _))) Hsome).
Defined.

Lemma positions_increase_witness :
  multiturn Probe.multi = true
  /\ (forall line, In line ["hi"; "yo"; "ok"] -> is_clear line = false)
  /\ (forall kv prompt pos,
         prompt <> [] -> pos < max_tokens Probe.multi ->
         streams_first
           (@GenerateGemma Demo.bytes GEMMA_PT kv Probe.multi prompt pos
              Demo.accept_all 0))
  /\ (forall line pos,
         In line ["hi"; "yo"; "ok"] ->
         @Encode Demo.bytes (template_prompt GEMMA_PT pos line) <> Some [])
  /\ 0 <= abs_pos (Demo.state Demo.encode_bytes Demo.decode_bytes 0 0 0)
  /\ StronglySorted Z.lt
       (map snd (calls (fst (@repl Demo.bytes Probe.multi 0 GEMMA_PT
                               Demo.accept_all (Now (Demo.world 7 0 1))
                               ["hi"; "yo"; "ok"]
                               (Demo.state Demo.encode_bytes
                                  Demo.decode_bytes 0 0 0))))).
Proof.
  assert (Hcl : forall line, In line ["hi"; "yo"; "ok"] -> is_clear line = false).
  { intros line [<- | [<- | [<- | []]]]; reflexivity. }
  assert (Hst : forall kv prompt pos,
             prompt <> [] -> pos < max_tokens Probe.multi ->
             streams_first
               (@GenerateGemma Demo.bytes GEMMA_PT kv Probe.multi prompt pos
                  Demo.accept_all 0)).
  { intros kv prompt pos Hne _. destruct prompt as [|token rest];
      [contradiction|exact I]. }
  assert (Hfull : forall line pos,
             In line ["hi"; "yo"; "ok"] ->
             @Encode Demo.bytes (template_prompt GEMMA_PT pos line) <> Some []).
  { intros line pos [<- | [<- | [<- | []]]]; discriminate. }
  assert (Hs : 0 <= abs_pos (Demo.state Demo.encode_bytes Demo.decode_bytes 0 0 0))
    by (simpl; lia).
  split; [reflexivity|]. split; [exact Hcl|]. split; [exact Hst|].
  split; [exact Hfull|]. split; [exact Hs|].
  exact (proj1 (@positions_increase Demo.bytes Probe.multi 0 GEMMA_PT
                  Demo.accept_all (Now (Demo.world 7 0 1)) ["hi"; "yo"; "ok"]
                  _ eq_refl Hcl Hst Hfull Hs)).
Defined.
